(** * Kavach backend: the alert-notification subsystem of [backend/main.py]

    A shallow embedding of the alert settings store, the alert evaluator
    ([check_alerts]), the notification senders ([send_email_alert],
    [send_sms_alert]), the alert history endpoints and the OTP verification
    endpoints, followed by the properties proved about them.

    Conventions of the embedding:
    - the three module-level stores ([alert_history], [user_alert_settings],
      [otp_storage]) are the fields of one [State] that every handler
      receives and returns;
    - a metric reading is a JSON number as Python holds it, an int or a
      (finite) float, compared by its exact value; thresholds are ints;
      [str] of an int is stdpp's [pretty]; a value of any other kind in
      place of a reading makes the comparisons raise and is outside the
      model;
    - [datetime] values are microsecond counts ([Z]);
    - the outside world (environment variables, the Resend and Twilio
      clients) is an [Env]: a provider call either returns or raises;
    - [random.randint] and the clock are inputs of the handlers that use
      them. *)

From stdpp Require Import gmap strings list pretty sorting.
From Stdlib Require Import ZArith QArith Lia Lqa Ascii.

Open Scope Z_scope.

(** ** Schemas *)

(** [class AlertSettings(BaseModel)]; what [settings.dict()] stores. *)
Record AlertSettings := {
  email : string;
  phone : string;
  landslide_threshold : Z;
  flood_threshold : Z;
  rainfall_threshold : Z;
  enable_email : bool;
  enable_sms : bool;
  alert_location : string;
  alert_lat : option Q;
  alert_lng : option Q
}.

(** The three values of an alert's ["type"] key. *)
Inductive AlertType := Landslide | Flood | HeavyRainfall.

(** The three values of an alert's ["level"] key. *)
Inductive AlertLevel := WATCH | WARNING | EMERGENCY.

Definition type_str (t : AlertType) : string :=
  match t with
  | Landslide => "Landslide"
  | Flood => "Flood"
  | HeavyRainfall => "Heavy Rainfall"
  end.

Definition level_str (l : AlertLevel) : string :=
  match l with
  | WATCH => "WATCH"
  | WARNING => "WARNING"
  | EMERGENCY => "EMERGENCY"
  end.

(** A JSON number as Python holds it: an int, or a float, given by its exact
    value and by the text [str] renders it with. *)
Inductive Number :=
| Int (z : Z)
| Float (q : Q) (repr : string).

Definition number_value (n : Number) : Q :=
  match n with
  | Int z => inject_Z z
  | Float q _ => q
  end.

(** [str(n)], as the f-strings of the messages call it. *)
Definition number_str (n : Number) : string :=
  match n with
  | Int z => pretty z
  | Float _ repr => repr
  end.

(** [n >= z] for a number [n] and an int [z]: Python compares the exact
    values, also between a float and an int. *)
Definition number_ge (n : Number) (z : Z) : bool :=
  Qle_bool (inject_Z z) (number_value n).

(** The alert dict built by [check_alerts]; ["value"] is the reading as it
    came. *)
Record Alert := {
  id : Z;
  type : AlertType;
  level : AlertLevel;
  value : Number;
  threshold : Z;
  message : string;
  location : string;
  timestamp : string
}.

(** An entry of [otp_storage]. *)
Record OtpRecord := {
  otp_phone : string;
  otp : string;
  expiry : Z;
  verified : bool
}.

(** The process-wide stores. *)
Record State := {
  alert_history : list Alert;
  user_alert_settings : gmap string AlertSettings;
  otp_storage : gmap string OtpRecord
}.

Definition initial_state : State :=
  {| alert_history := []; user_alert_settings := ∅; otp_storage := ∅ |}.

Global Instance AlertType_eq_dec : EqDecision AlertType.
Proof. solve_decision. Defined.

Global Instance AlertLevel_eq_dec : EqDecision AlertLevel.
Proof. solve_decision. Defined.

(** ** The outside world *)

(** A call into a provider's client library returns or raises. *)
Inductive SendOutcome := Returned | Raised.

Record Env := {
  RESEND_API_KEY : string;
  TWILIO_ACCOUNT_SID : string;
  TWILIO_AUTH_TOKEN : string;
  TWILIO_PHONE_NUMBER : string;
  (** [import resend; resend.Emails.send(params)] followed by [email['id']],
      as a function of the destination and the alert the params are built
      from *)
  resend_send : string → Alert → SendOutcome;
  (** [from twilio.rest import Client; Client(sid, token).messages.create(
      body=.., from_=.., to=..)] *)
  twilio_create : string → string → string → SendOutcome
}.

(** Truth value of a Python string: only the empty string is falsy. *)
Definition truthy (s : string) : bool := negb (String.eqb s EmptyString).

(** [to_phone if to_phone.startswith('+') else f"+91{to_phone}"] *)
Definition twilio_to (to_phone : string) : string :=
  if String.prefix "+" to_phone then to_phone else "+91" +:+ to_phone.

(** [all([twilio_sid, twilio_token, twilio_phone])] *)
Definition twilio_configured (env : Env) : bool :=
  truthy (TWILIO_ACCOUNT_SID env) && truthy (TWILIO_AUTH_TOKEN env)
  && truthy (TWILIO_PHONE_NUMBER env).

(** ** Senders *)

Definition send_email_alert (env : Env) (to_email : string) (alert_data : Alert) : bool :=
  if negb (truthy (RESEND_API_KEY env)) then false
  else match resend_send env to_email alert_data with
       | Returned => true
       | Raised => false
       end.

Definition sms_alert_body (alert_data : Alert) : string :=
  "🚨 " +:+ level_str (level alert_data) +:+ " Alert: " +:+ type_str (type alert_data)
  +:+ " - " +:+ message alert_data +:+ " at your Location. Stay safe!".

Definition send_sms_alert (env : Env) (to_phone : string) (alert_data : Alert) : bool :=
  if twilio_configured env then
    match twilio_create env (sms_alert_body alert_data) (TWILIO_PHONE_NUMBER env)
            (twilio_to to_phone) with
    | Returned => true
    | Raised => false
    end
  else false.

(** ** Settings store *)

Definition save_alert_settings (settings : AlertSettings) (user_id : string)
    (st : State) : State :=
  {| alert_history := alert_history st;
     user_alert_settings := <[user_id := settings]> (user_alert_settings st);
     otp_storage := otp_storage st |}.

Definition default_settings : AlertSettings :=
  {| email := EmptyString; phone := EmptyString;
     landslide_threshold := 70; flood_threshold := 60; rainfall_threshold := 100;
     enable_email := false; enable_sms := false;
     alert_location := EmptyString; alert_lat := None; alert_lng := None |}.

Definition get_alert_settings (user_id : string) (st : State) : AlertSettings :=
  default default_settings (user_alert_settings st !! user_id).

(** ** Alert evaluator *)

(** The JSON body of [POST /alert/check]. [None] is a key that is missing,
    which [data.get(key, 0)] reads as the int 0; a reading that is present
    is a JSON number, int or float. *)
Record CheckBody := {
  body_landslide_risk : option Number;
  body_flood_risk : option Number;
  body_rainfall : option Number;
  body_location : option string
}.

Record Notifications := {
  email_sent : bool;
  sms_sent : bool
}.

(** The dict returned by [check_alerts]: the not-configured return has a
    ["message"] key and no ["notifications"] key, the other return the
    opposite. *)
Record CheckResponse := {
  status : string;
  alerts : list Alert;
  response_message : option string;
  notifications : option Notifications
}.

(** A call of one of the two senders made by [check_alerts]. *)
Inductive SendCall :=
| EmailCall (to_email : string) (alert : Alert)
| SmsCall (to_phone : string) (alert : Alert).

(** The dict literal of the block under [# Check landslide threshold], with
    the [level] computed just before it; [alert_history] is the global list
    at that point. *)
Definition landslide_alert (settings : AlertSettings) (landslide_risk : Number)
    (location current_time : string) (alert_history : list Alert) : Alert :=
  let level :=
    if number_ge landslide_risk 85 then EMERGENCY
    else if number_ge landslide_risk 70 then WARNING else WATCH in
  {| id := Z.of_nat (length alert_history) + 1;
     type := Landslide;
     level := level;
     value := landslide_risk;
     threshold := landslide_threshold settings;
     message := "Landslide risk at " +:+ number_str landslide_risk
                +:+ "% exceeds threshold";
     location := location;
     timestamp := current_time |}.

(** The dict literal of the block under [# Check flood threshold]. *)
Definition flood_alert (settings : AlertSettings) (flood_risk : Number)
    (location current_time : string) (alert_history : list Alert) : Alert :=
  let level :=
    if number_ge flood_risk 80 then EMERGENCY
    else if number_ge flood_risk 60 then WARNING else WATCH in
  {| id := Z.of_nat (length alert_history) + 1;
     type := Flood;
     level := level;
     value := flood_risk;
     threshold := flood_threshold settings;
     message := "Flood risk at " +:+ number_str flood_risk +:+ "% exceeds threshold";
     location := location;
     timestamp := current_time |}.

(** The dict literal of the block under [# Check rainfall threshold]. *)
Definition rainfall_alert (settings : AlertSettings) (rainfall : Number)
    (location current_time : string) (alert_history : list Alert) : Alert :=
  let level :=
    if number_ge rainfall 150 then EMERGENCY
    else if number_ge rainfall 100 then WARNING else WATCH in
  {| id := Z.of_nat (length alert_history) + 1;
     type := HeavyRainfall;
     level := level;
     value := rainfall;
     threshold := rainfall_threshold settings;
     message := "Rainfall at " +:+ number_str rainfall +:+ "mm exceeds threshold";
     location := location;
     timestamp := current_time |}.

(** The three blocks. The pair is the local [alerts] list and the global
    [alert_history]; the same alert is appended to both. *)
Definition check_landslide (settings : AlertSettings) (landslide_risk : Number)
    (location current_time : string) (ls : list Alert * list Alert)
    : list Alert * list Alert :=
  if number_ge landslide_risk (landslide_threshold settings) then
    let alert := landslide_alert settings landslide_risk location current_time ls.2 in
    (ls.1 ++ [alert], ls.2 ++ [alert])
  else ls.

Definition check_flood (settings : AlertSettings) (flood_risk : Number)
    (location current_time : string) (ls : list Alert * list Alert)
    : list Alert * list Alert :=
  if number_ge flood_risk (flood_threshold settings) then
    let alert := flood_alert settings flood_risk location current_time ls.2 in
    (ls.1 ++ [alert], ls.2 ++ [alert])
  else ls.

Definition check_rainfall (settings : AlertSettings) (rainfall : Number)
    (location current_time : string) (ls : list Alert * list Alert)
    : list Alert * list Alert :=
  if number_ge rainfall (rainfall_threshold settings) then
    let alert := rainfall_alert settings rainfall location current_time ls.2 in
    (ls.1 ++ [alert], ls.2 ++ [alert])
  else ls.

(** What the body of [for alert in alerts] carries from one iteration to the
    next: the two flags, and the sender calls made so far. *)
Record Dispatch := {
  d_email_sent : bool;
  d_sms_sent : bool;
  d_calls : list SendCall
}.

(** The [if settings.get("enable_email") and settings.get("email")]
    statement of the loop body. *)
Definition notify_email (env : Env) (settings : AlertSettings) (alert : Alert)
    (d : Dispatch) : Dispatch :=
  if enable_email settings && truthy (email settings) then
    let email_result := send_email_alert env (email settings) alert in
    {| d_email_sent := if email_result then true else d_email_sent d;
       d_sms_sent := d_sms_sent d;
       d_calls := d_calls d ++ [EmailCall (email settings) alert] |}
  else d.

(** The [if settings.get("enable_sms") and settings.get("phone")] statement
    of the loop body. *)
Definition notify_sms (env : Env) (settings : AlertSettings) (alert : Alert)
    (d : Dispatch) : Dispatch :=
  if enable_sms settings && truthy (phone settings) then
    let sms_result := send_sms_alert env (phone settings) alert in
    {| d_email_sent := d_email_sent d;
       d_sms_sent := if sms_result then true else d_sms_sent d;
       d_calls := d_calls d ++ [SmsCall (phone settings) alert] |}
  else d.

(** One iteration of [for alert in alerts]. *)
Definition notify (env : Env) (settings : AlertSettings) (d : Dispatch)
    (alert : Alert) : Dispatch :=
  notify_sms env settings alert (notify_email env settings alert d).

(** The whole loop, from [email_sent = False; sms_sent = False]. *)
Definition notify_all (env : Env) (settings : AlertSettings) (alerts : list Alert)
    : Dispatch :=
  foldl (notify env settings)
        {| d_email_sent := false; d_sms_sent := false; d_calls := [] |} alerts.

(** The sender calls one iteration of the loop makes for an alert, in order:
    what the two guards of [notify] let through. *)
Definition calls_for (settings : AlertSettings) (alert : Alert) : list SendCall :=
  (if enable_email settings && truthy (email settings)
   then [EmailCall (email settings) alert] else [])
  ++ (if enable_sms settings && truthy (phone settings)
      then [SmsCall (phone settings) alert] else []).

(** The result of a [check_alerts] call: the response, the stores after the
    call, and the sender calls it made, in order. *)
Record CheckResult := {
  response : CheckResponse;
  state_after : State;
  calls : list SendCall
}.

(** [POST /alert/check]. [current_time] is the value of
    [time.strftime("%Y-%m-%d %H:%M:%S")]. *)
Definition check_alerts (env : Env) (data : CheckBody) (user_id : string)
    (current_time : string) (st : State) : CheckResult :=
  let landslide_risk := default (Int 0) (body_landslide_risk data) in
  let flood_risk := default (Int 0) (body_flood_risk data) in
  let rainfall := default (Int 0) (body_rainfall data) in
  let location := default "Unknown Location" (body_location data) in
  match user_alert_settings st !! user_id with
  | None =>
      {| response := {| status := "success"; alerts := [];
                        response_message := Some "No settings configured";
                        notifications := None |};
         state_after := st;
         calls := [] |}
  | Some settings =>
      let ls := ([], alert_history st) in
      let ls := check_landslide settings landslide_risk location current_time ls in
      let ls := check_flood settings flood_risk location current_time ls in
      let ls := check_rainfall settings rainfall location current_time ls in
      let d := notify_all env settings ls.1 in
      {| response := {| status := "success"; alerts := ls.1;
                        response_message := None;
                        notifications :=
                          Some {| email_sent := d_email_sent d;
                                  sms_sent := d_sms_sent d |} |};
         state_after := {| alert_history := ls.2;
                           user_alert_settings := user_alert_settings st;
                           otp_storage := otp_storage st |};
         calls := d_calls d |}
  end.

(** ** Alert history endpoints *)

(** Python's [l[start:]] for a list [l] and an integer [start]: a negative
    [start] counts from the end, and both ends are clamped. *)
Definition slice_from {A} (l : list A) (start : Z) : list A :=
  let len := Z.of_nat (length l) in
  let start := if start <? 0 then Z.max 0 (start + len) else Z.min start len in
  drop (Z.to_nat start) l.

(** [GET /alert/history]: [alert_history[-limit:] if alert_history else []] *)
Definition get_alert_history (limit : Z) (st : State) : list Alert :=
  match alert_history st with
  | [] => []
  | _ => slice_from (alert_history st) (- limit)
  end.

(** [DELETE /alert/history] *)
Definition clear_alert_history (st : State) : State :=
  {| alert_history := [];
     user_alert_settings := user_alert_settings st;
     otp_storage := otp_storage st |}.

(** ** OTP verification *)

(** The JSON body of [POST /alert/send_verification_otp]. *)
Record SendOtpBody := {
  send_user_id : option string;
  send_phone : option string
}.

(** The JSON body of [POST /alert/verify_otp]. *)
Record VerifyOtpBody := {
  verify_user_id : option string;
  verify_otp_entered : option string
}.

(** The dicts returned by the two OTP endpoints; only the success return of
    [verify_otp] has a ["phone"] key. *)
Record OtpResponse := {
  otp_status : string;
  otp_message : string;
  otp_response_phone : option string
}.

Definition otp_error (msg : string) : OtpResponse :=
  {| otp_status := "error"; otp_message := msg; otp_response_phone := None |}.

(** [timedelta(minutes=10)], in microseconds. *)
Definition ten_minutes : Z := 10 * 60 * 1000000.

Definition otp_sms_body (otp : string) : string :=
  "Your KAVACH verification code is: " +:+ otp
  +:+ "

This code will expire in 10 minutes.

Do not share this code with anyone.".

(** [POST /alert/send_verification_otp]. [now] is [datetime.now()] and
    [draw] the value of [random.randint(100000, 999999)]. *)
Definition send_verification_otp (env : Env) (data : SendOtpBody) (now draw : Z)
    (st : State) : OtpResponse * State :=
  let user_id := default "default" (send_user_id data) in
  let phone := default EmptyString (send_phone data) in
  if negb (truthy phone) then (otp_error "Phone number is required", st)
  else
    let otp := pretty draw in
    let expiry := now + ten_minutes in
    let st' :=
      {| alert_history := alert_history st;
         user_alert_settings := user_alert_settings st;
         otp_storage :=
           <[user_id := {| otp_phone := phone; otp := otp; expiry := expiry;
                           verified := false |}]> (otp_storage st) |} in
    if twilio_configured env then
      match twilio_create env (otp_sms_body otp) (TWILIO_PHONE_NUMBER env)
              (twilio_to phone) with
      | Returned =>
          ({| otp_status := "success";
              otp_message := "Verification code sent to " +:+ phone;
              otp_response_phone := None |}, st')
      | Raised =>
          (otp_error "Failed to send verification code. Please try again later.", st')
      end
    else
      (otp_error "SMS service not configured. Please contact administrator.", st').

(** [POST /alert/verify_otp]. [now] is [datetime.now()]. *)
Definition verify_otp (data : VerifyOtpBody) (now : Z) (st : State)
    : OtpResponse * State :=
  let user_id := default "default" (verify_user_id data) in
  let otp_entered := default EmptyString (verify_otp_entered data) in
  match otp_storage st !! user_id with
  | None => (otp_error "No OTP found. Please request a new one.", st)
  | Some stored =>
      if now >? expiry stored then
        (otp_error "OTP expired. Please request a new one.",
         {| alert_history := alert_history st;
            user_alert_settings := user_alert_settings st;
            otp_storage := delete user_id (otp_storage st) |})
      else if negb (String.eqb (otp stored) otp_entered) then
        (otp_error "Invalid OTP. Please try again.", st)
      else
        ({| otp_status := "success";
            otp_message := "Phone number verified successfully!";
            otp_response_phone := Some (otp_phone stored) |},
         {| alert_history := alert_history st;
            user_alert_settings := user_alert_settings st;
            otp_storage :=
              <[user_id := {| otp_phone := otp_phone stored; otp := otp stored;
                              expiry := expiry stored; verified := true |}]>
                (otp_storage st) |})
  end.

(** [GET /alert/verification_status]: the ["verified"] and ["phone"] keys. *)
Definition get_verification_status (user_id : string) (st : State)
    : bool * option string :=
  match otp_storage st !! user_id with
  | Some stored =>
      if verified stored then (true, Some (otp_phone stored)) else (false, None)
  | None => (false, None)
  end.

(** A decimal digit, and a string made of decimal digits only. *)
Definition is_digit (c : ascii) : bool :=
  (48 <=? nat_of_ascii c)%nat && (nat_of_ascii c <=? 57)%nat.

Fixpoint all_digits (s : string) : bool :=
  match s with
  | EmptyString => true
  | String c s => is_digit c && all_digits s
  end.

(** ** Runs of the service *)

(** The requests that touch the settings store and the alert history. *)
Inductive Request :=
| SaveAlertSettings (settings : AlertSettings) (user_id : string)
| CheckAlerts (data : CheckBody) (user_id : string) (current_time : string)
| ClearAlertHistory.

(** Serving one request: the stores after it and the alerts it created. *)
Definition serve (env : Env) (st : State) (r : Request) : State * list Alert :=
  match r with
  | SaveAlertSettings settings user_id => (save_alert_settings settings user_id st, [])
  | CheckAlerts data user_id current_time =>
      let res := check_alerts env data user_id current_time st in
      (state_after res, alerts (response res))
  | ClearAlertHistory => (clear_alert_history st, [])
  end.

(** Serving a sequence of requests: the final stores and every alert created
    on the way, in creation order. *)
Fixpoint run (env : Env) (st : State) (rs : list Request) : State * list Alert :=
  match rs with
  | [] => (st, [])
  | r :: rs =>
      let '(st1, created1) := serve env st r in
      let '(st2, created2) := run env st1 rs in
      (st2, created1 ++ created2)
  end.

Definition is_clear (r : Request) : bool :=
  match r with ClearAlertHistory => true | _ => false end.

(** The ids of a list of alerts are strictly increasing. *)
Fixpoint increasing_ids_from (low : Z) (l : list Alert) : bool :=
  match l with
  | [] => true
  | a :: l => (low <? id a) && increasing_ids_from (id a) l
  end.

Definition increasing_ids (l : list Alert) : bool :=
  match l with
  | [] => true
  | a :: l => increasing_ids_from (id a) l
  end.

(** How many alerts of a type a list holds. *)
Definition count_type (t : AlertType) (l : list Alert) : nat :=
  length (filter (λ a, type a = t) l).

(** ** Sample inputs *)

(** Every credential set and both providers accepting every message. *)
Definition env_up : Env :=
  {| RESEND_API_KEY := "re_test_key";
     TWILIO_ACCOUNT_SID := "ACtest";
     TWILIO_AUTH_TOKEN := "token";
     TWILIO_PHONE_NUMBER := "+1234567890";
     resend_send := λ _ _, Returned;
     twilio_create := λ _ _ _, Returned |}.

(** No credential set; a provider call, were it made, would raise. *)
Definition env_down : Env :=
  {| RESEND_API_KEY := EmptyString;
     TWILIO_ACCOUNT_SID := EmptyString;
     TWILIO_AUTH_TOKEN := EmptyString;
     TWILIO_PHONE_NUMBER := EmptyString;
     resend_send := λ _ _, Raised;
     twilio_create := λ _ _ _, Raised |}.

(** Every credential set, Resend raising and Twilio accepting. *)
Definition env_email_raises : Env :=
  {| RESEND_API_KEY := "re_test_key";
     TWILIO_ACCOUNT_SID := "ACtest";
     TWILIO_AUTH_TOKEN := "token";
     TWILIO_PHONE_NUMBER := "+1234567890";
     resend_send := λ _ _, Raised;
     twilio_create := λ _ _ _, Returned |}.

(** Twilio credentials set, the Twilio client raising. *)
Definition env_twilio_raises : Env :=
  {| RESEND_API_KEY := EmptyString;
     TWILIO_ACCOUNT_SID := "ACtest";
     TWILIO_AUTH_TOKEN := "token";
     TWILIO_PHONE_NUMBER := "+1234567890";
     resend_send := λ _ _, Raised;
     twilio_create := λ _ _ _, Raised |}.

(** A user with a low landslide threshold and both channels enabled. *)
Definition sample_settings : AlertSettings :=
  {| email := "user@example.org"; phone := "9163615366";
     landslide_threshold := 10; flood_threshold := 60; rainfall_threshold := 100;
     enable_email := true; enable_sms := true;
     alert_location := "Kolkata, India"; alert_lat := None; alert_lng := None |}.

Definition sample_state : State :=
  save_alert_settings sample_settings "default" initial_state.

Definition sample_time : string := "2026-01-08 16:25:00".

(** Landslide 72 and flood 80 cross their thresholds, rainfall 20 does not. *)
Definition sample_body : CheckBody :=
  {| body_landslide_risk := Some (Int 72); body_flood_risk := Some (Int 80);
     body_rainfall := Some (Int 20); body_location := Some "Kolkata, India" |}.

(** Every reading below the thresholds of [sample_settings]. *)
Definition quiet_body : CheckBody :=
  {| body_landslide_risk := Some (Int 5); body_flood_risk := Some (Int 5);
     body_rainfall := Some (Int 5); body_location := None |}.

(** Only the landslide reading crosses its threshold. *)
Definition landslide_body : CheckBody :=
  {| body_landslide_risk := Some (Int 90); body_flood_risk := None;
     body_rainfall := None; body_location := None |}.

(** Readings as [/simulate] produces them, floats just under a band edge. *)
Definition float_body : CheckBody :=
  {| body_landslide_risk := Some (Float 84.5 "84.5");
     body_flood_risk := Some (Float 59.99 "59.99");
     body_rainfall := Some (Float 100.0 "100.0"); body_location := None |}.

Definition sample_alert : Alert :=
  {| id := 1; type := Landslide; level := EMERGENCY; value := Int 90; threshold := 10;
     message := "Landslide risk at 90% exceeds threshold";
     location := "Unknown Location"; timestamp := sample_time |}.

Definition sample_otp_record : OtpRecord :=
  {| otp_phone := "9163615366"; otp := "483920"; expiry := 600000000;
     verified := false |}.

Definition sample_otp_state : State :=
  {| alert_history := []; user_alert_settings := ∅;
     otp_storage := {[ "default" := sample_otp_record ]} |}.


Definition sample_send_body : SendOtpBody :=
  {| send_user_id := None; send_phone := Some "9163615366" |}.

Definition sample_verify_body : VerifyOtpBody :=
  {| verify_user_id := None; verify_otp_entered := Some "483920" |}.

Definition wrong_verify_body : VerifyOtpBody :=
  {| verify_user_id := None; verify_otp_entered := Some "000000" |}.

(** The stores after [sample_otp_record] has been verified. *)
Definition sample_verified_state : State :=
  (verify_otp sample_verify_body 0 sample_otp_state).2.

(** ** Severity bands *)

(** The [level] expression of each block of [check_alerts], by alert type. *)
Definition band_level (t : AlertType) (v : Number) : AlertLevel :=
  match t with
  | Landslide =>
      if number_ge v 85 then EMERGENCY else if number_ge v 70 then WARNING else WATCH
  | Flood =>
      if number_ge v 80 then EMERGENCY else if number_ge v 60 then WARNING else WATCH
  | HeavyRainfall =>
      if number_ge v 150 then EMERGENCY else if number_ge v 100 then WARNING else WATCH
  end.

(** The user's threshold for each alert type. *)
Definition configured_threshold (settings : AlertSettings) (t : AlertType) : Z :=
  match t with
  | Landslide => landslide_threshold settings
  | Flood => flood_threshold settings
  | HeavyRainfall => rainfall_threshold settings
  end.

(** The lower edge of the WARNING band of each alert type. *)
Definition warning_edge (t : AlertType) : Z :=
  match t with Landslide => 70 | Flood => 60 | HeavyRainfall => 100 end.

(** The i-th entry of a history, counted from 0, carries the id i + 1. *)
Definition numbered (h : list Alert) : Prop :=
  ∀ i a, h !! i = Some a → id a = Z.of_nat i + 1.

(** What every recorded alert satisfies: it records a crossing of the
    threshold stored in it, and its level is the band of its value. *)
Definition well_formed_alert (a : Alert) : Prop :=
  (inject_Z (threshold a) <= number_value (value a))%Q
  ∧ level a = band_level (type a) (value a).

(** ** Saved alert location *)

(** Truth value of an optional Python float: [None] and zero are falsy. *)
Definition float_truthy (x : option Q) : bool :=
  match x with
  | None => false
  | Some q => negb (Qeq_bool q 0)
  end.

(** The dict returned by [check_saved_location_alerts]; only the success
    return has a ["location"] key. *)
Record SavedLocationResponse := {
  saved_status : string;
  saved_message : string;
  saved_location : option string
}.

Definition no_alert_location : SavedLocationResponse :=
  {| saved_status := "error";
     saved_message :=
       "No alert location configured. Please set a location in alert settings.";
     saved_location := None |}.

(** [POST /alert/check_saved_location]. [format_4f] renders a float with the
    format spec [.4f]. The [simulation_input] dict is built and not used; the
    f-strings of the [try] block do not raise on floats, so its [except]
    branch is not modelled. *)
Definition check_saved_location_alerts (format_4f : Q → string) (user_id : string)
    (st : State) : SavedLocationResponse :=
  match user_alert_settings st !! user_id with
  | None => no_alert_location
  | Some settings =>
      if negb (float_truthy (alert_lat settings))
         || negb (float_truthy (alert_lng settings))
      then no_alert_location
      else
        let lat := default 0%Q (alert_lat settings) in
        let lon := default 0%Q (alert_lng settings) in
        {| saved_status := "success";
           saved_message :=
             "Monitoring location: " +:+ format_4f lat +:+ ", " +:+ format_4f lon;
           saved_location := Some (alert_location settings) |}
  end.

(** ** Reverse geocoding and local news *)

(** What an HTTP call through [httpx] yields: the request raises, or a
    response arrives whose [.json()] raises ([None]) or decodes. *)
Inductive HttpOutcome (A : Type) :=
| RequestRaises
| Responded (status_code : Z) (json : option A).
Arguments RequestRaises {A}.
Arguments Responded {A} status_code json.

(** The ["address"] object of a Nominatim reverse-geocoding answer. *)
Record NominatimAddress := {
  city : option string;
  state_district : option string;
  state : option string;
  country : option string
}.

Record NominatimData := {
  address : option NominatimAddress
}.

(** [x or y] where [x] is the result of a [dict.get] on string values:
    a missing key ([None]) and the empty string are falsy. *)
Definition get_or (x : option string) (y : string) : string :=
  match x with
  | Some s => if truthy s then s else y
  | None => y
  end.

(** [get_location_name]; [nominatim] is the GET request to the reverse
    geocoder for the given coordinates. *)
Definition get_location_name (nominatim : Q → Q → HttpOutcome NominatimData)
    (lat lon : Q) : string :=
  match nominatim lat lon with
  | Responded status_code json =>
      if status_code =? 200 then
        match json with
        | Some data =>
            let address :=
              default {| city := None; state_district := None; state := None;
                         country := None |} (address data) in
            get_or (city address)
              (get_or (state_district address)
                 (get_or (state address)
                    (get_or (country address) "Unknown Location")))
        | None => "Selected Area"
        end
      else "Selected Area"
  | RequestRaises => "Selected Area"
  end.

(** An entry of the ["articles"] list of a GNews answer. *)
Record Article := {
  article_title : option string;
  article_description : option string;
  article_source : option (option string);
  article_url : option string;
  article_publishedAt : option string;
  article_image : option string
}.

Record GNewsData := {
  articles : option (list Article)
}.

Record NewsItem := {
  news_title : string;
  news_description : string;
  news_source : string;
  news_url : string;
  news_published_at : string;
  news_image : string
}.

Record NewsResponse := {
  news_status : string;
  news_location : string;
  news : list NewsItem
}.

(** The dict built for one article. [article_source] is the ["source"]
    object, if any, reduced to its ["name"] key, if any. *)
Definition news_item (article : Article) : NewsItem :=
  {| news_title := default EmptyString (article_title article);
     news_description := default EmptyString (article_description article);
     news_source := default "Unknown" (default None (article_source article));
     news_url := default EmptyString (article_url article);
     news_published_at := default EmptyString (article_publishedAt article);
     news_image := default EmptyString (article_image article) |}.

Definition news_query (location_name : string) : string :=
  location_name +:+ " weather OR disaster OR flood OR landslide OR rainfall OR storm".

(** [GET /local_news]; [gnews] is the GET request to the news search for a
    query string. [get_location_name] does not raise, so [location_name] is
    bound whenever the [except] branch runs. *)
Definition get_local_news (nominatim : Q → Q → HttpOutcome NominatimData)
    (gnews : string → HttpOutcome GNewsData) (lat lon : Q) : NewsResponse :=
  let location_name := get_location_name nominatim lat lon in
  let query := news_query location_name in
  match gnews query with
  | Responded status_code json =>
      if status_code =? 200 then
        match json with
        | Some data =>
            let articles := default [] (articles data) in
            {| news_status := "success"; news_location := location_name;
               news := map news_item (take 6 articles) |}
        | None =>
            {| news_status := "success"; news_location := location_name;
               news := [] |}
        end
      else
        {| news_status := "success"; news_location := location_name; news := [] |}
  | RequestRaises =>
      {| news_status := "success"; news_location := location_name; news := [] |}
  end.

(** ** Safe zones *)

(** The ["tags"] object of an Overpass element, reduced to the keys read. *)
Record Tags := {
  tag_amenity : option string;
  tag_emergency : option string;
  tag_name : option string;
  tag_addr_full : option string
}.

Record Element := {
  elem_tags : option Tags;
  elem_lat : option Q;
  elem_lon : option Q
}.

Record OverpassData := {
  elements : option (list Element)
}.

Record SafeZone := {
  zone_name : string;
  zone_category : string;
  zone_icon : string;
  zone_lat : Q;
  zone_lon : Q;
  zone_distance : Q;
  zone_address : string
}.

(** The dicts returned by [get_safe_zones]: the error returns made after a
    failed fetch carry an empty ["safe_zones"] list, the one made by the outer
    [except] carries none, and only the success return has
    ["total_found"]. *)
Record SafeZonesResponse := {
  zones_status : string;
  zones_message : option string;
  safe_zones : option (list SafeZone);
  total_found : option nat
}.

Definition zones_error (msg : string) : SafeZonesResponse :=
  {| zones_status := "error"; zones_message := Some msg; safe_zones := Some [];
     total_found := None |}.

(** The two error returns made inside the retry loop. *)
Definition zones_unavailable : SafeZonesResponse :=
  zones_error "Safe zones API is currently unavailable. Please try again later.".

Definition zones_failed : SafeZonesResponse :=
  zones_error "Safe zones API encountered an error".

(** One POST to the Overpass API: [httpx.TimeoutException], any other
    exception, or a response whose [.json()] raises with the given [str(e)]
    ([inl]) or decodes ([inr]). *)
Inductive PostOutcome :=
| PostTimeout
| PostRaises
| PostResponse (status_code : Z) (json : string + OverpassData).

Definition max_retries : nat := 3.
Definition retry_delay : Z := 2.

(** What the retry loop carries: the variable [response] once it is bound, a
    [return] made inside the loop, and, for the record, how many requests
    were sent and the [asyncio.sleep] delays, in order. *)
Record Fetch := {
  fetch_response : option (Z * (string + OverpassData));
  fetch_returned : option SafeZonesResponse;
  fetch_requests : nat;
  fetch_sleeps : list Z
}.

Definition fetch_start : Fetch :=
  {| fetch_response := None; fetch_returned := None; fetch_requests := 0;
     fetch_sleeps := [] |}.

Definition fetch_sleep (delay : Z) (f : Fetch) : Fetch :=
  {| fetch_response := fetch_response f; fetch_returned := fetch_returned f;
     fetch_requests := fetch_requests f; fetch_sleeps := fetch_sleeps f ++ [delay] |}.

Definition fetch_return (r : SafeZonesResponse) (f : Fetch) : Fetch :=
  {| fetch_response := fetch_response f; fetch_returned := Some r;
     fetch_requests := fetch_requests f; fetch_sleeps := fetch_sleeps f |}.

(** [for attempt in range(max_retries)]; [overpass attempt] is the outcome of
    the POST of that attempt. *)
Fixpoint fetch_attempts (overpass : nat → PostOutcome) (attempts : list nat)
    (f : Fetch) : Fetch :=
  match attempts with
  | [] => f
  | attempt :: rest =>
      let more := (attempt <? max_retries - 1)%nat in
      let backoff := retry_delay * (Z.of_nat attempt + 1) in
      let sent :=
        {| fetch_response := fetch_response f; fetch_returned := fetch_returned f;
           fetch_requests := S (fetch_requests f); fetch_sleeps := fetch_sleeps f |} in
      match overpass attempt with
      | PostResponse status_code json =>
          let got :=
            {| fetch_response := Some (status_code, json);
               fetch_returned := fetch_returned sent;
               fetch_requests := fetch_requests sent;
               fetch_sleeps := fetch_sleeps sent |} in
          if status_code =? 200 then got
          else if status_code =? 504 then
            if more then fetch_attempts overpass rest (fetch_sleep backoff got)
            else fetch_attempts overpass rest got
          else
            if more then fetch_attempts overpass rest (fetch_sleep retry_delay got)
            else fetch_attempts overpass rest got
      | PostTimeout =>
          if more then fetch_attempts overpass rest (fetch_sleep backoff sent)
          else fetch_return zones_unavailable sent
      | PostRaises =>
          if more then fetch_attempts overpass rest (fetch_sleep retry_delay sent)
          else fetch_return zones_failed sent
      end
  end.

(** The [if amenity == ...] chain: category and icon. *)
Definition categorize (amenity : string) : string * string :=
  if String.eqb amenity "hospital" then ("Hospital", "🏥")
  else if String.eqb amenity "police" then ("Police Station", "🚓")
  else if String.eqb amenity "fire_station" then ("Fire Station", "🚒")
  else if String.eqb amenity "shelter" then ("Shelter", "🏠")
  else if String.eqb amenity "assembly_point" then ("Assembly Point", "📍")
  else ("Safe Zone", "🛡️").

(** The zones answers without a ["safe_zones"] key the outer [except]
    makes, with [str(e)] as message. *)
Definition zones_exception (msg : string) : SafeZonesResponse :=
  {| zones_status := "error"; zones_message := Some msg; safe_zones := None;
     total_found := None |}.

(** The body of [for elem in elements]. [rounded_distance lat lon lat2 lon2]
    stands for the floating-point trigonometry of [calculate_distance], taken
    as given: [inr d] when it returns, [d] being
    [round(calculate_distance(lat, lon, lat2, lon2), 2)], and [inl msg] when
    it raises (a [math.sqrt] of a negative number, for points that are nearly
    antipodal) with [str(e) = msg]. *)
Definition safe_zone (rounded_distance : Q → Q → Q → Q → string + Q) (lat lon : Q)
    (elem : Element) : string + SafeZone :=
  let tags :=
    default {| tag_amenity := None; tag_emergency := None; tag_name := None;
               tag_addr_full := None |} (elem_tags elem) in
  let amenity := default (default "unknown" (tag_emergency tags)) (tag_amenity tags) in
  let name := default ("Unnamed " +:+ amenity) (tag_name tags) in
  let lat2 := default 0%Q (elem_lat elem) in
  let lon2 := default 0%Q (elem_lon elem) in
  match rounded_distance lat lon lat2 lon2 with
  | inl msg => inl msg
  | inr distance =>
      inr {| zone_name := name;
             zone_category := (categorize amenity).1;
             zone_icon := (categorize amenity).2;
             zone_lat := lat2;
             zone_lon := lon2;
             zone_distance := distance;
             zone_address := default EmptyString (tag_addr_full tags) |}
  end.

(** [for elem in elements]: the zones in element order, or the exception of
    the first element whose distance computation raises. *)
Fixpoint safe_zones_of (rounded_distance : Q → Q → Q → Q → string + Q) (lat lon : Q)
    (elements : list Element) : string + list SafeZone :=
  match elements with
  | [] => inr []
  | elem :: rest =>
      match safe_zone rounded_distance lat lon elem with
      | inl msg => inl msg
      | inr zone =>
          match safe_zones_of rounded_distance lat lon rest with
          | inl msg => inl msg
          | inr zones => inr (zone :: zones)
          end
      end
  end.

(** [safe_zones.sort(key=lambda x: x["distance"])]: ascending, and stable, so
    a zone goes behind every zone already placed whose distance is not
    larger. *)
Fixpoint insert_by_distance (z : SafeZone) (l : list SafeZone) : list SafeZone :=
  match l with
  | [] => [z]
  | y :: l' =>
      if Qle_bool (zone_distance y) (zone_distance z)
      then y :: insert_by_distance z l'
      else z :: l
  end.

Definition sort_by_distance (l : list SafeZone) : list SafeZone :=
  foldl (λ sorted z, insert_by_distance z sorted) [] l.

(** What follows the loop for a response of status 200: decoding, the
    element loop, the sort and the cut to 15; an exception in any of them
    reaches the outer [except]. *)
Definition zones_answer (rounded_distance : Q → Q → Q → Q → string + Q) (lat lon : Q)
    (json : string + OverpassData) : SafeZonesResponse :=
  match json with
  | inl msg => zones_exception msg
  | inr data =>
      let elements := default [] (elements data) in
      match safe_zones_of rounded_distance lat lon elements with
      | inl msg => zones_exception msg
      | inr safe_zones =>
          let zones := sort_by_distance safe_zones in
          {| zones_status := "success"; zones_message := None;
             safe_zones := Some (take 15 zones);
             total_found := Some (length zones) |}
      end
  end.

(** [GET /safe_zones]. The query text depends on the arguments but the
    outcomes of the POSTs are given by [overpass], so it is not built;
    [radius] only enters the query. The loop never leaves [response]
    unbound; were it to, the outer [except] would answer with the text of
    the unbound-variable error. *)
Definition get_safe_zones (overpass : nat → PostOutcome)
    (rounded_distance : Q → Q → Q → Q → string + Q) (lat lon radius : Q)
    : SafeZonesResponse :=
  let f := fetch_attempts overpass (seq 0 max_retries) fetch_start in
  match fetch_returned f with
  | Some r => r
  | None =>
      match fetch_response f with
      | None =>
          zones_exception
            "cannot access local variable 'response' where it is not associated with a value"
      | Some (status_code, json) =>
          if negb (status_code =? 200) then
            zones_error ("Safe zones API unavailable (HTTP " +:+ pretty status_code +:+ ")")
          else zones_answer rounded_distance lat lon json
      end
  end.

(** The answer when no attempt is answered 200: it is decided by the third
    attempt. *)
Definition zones_failure (third : PostOutcome) : SafeZonesResponse :=
  match third with
  | PostTimeout => zones_unavailable
  | PostRaises => zones_failed
  | PostResponse status_code _ =>
      zones_error ("Safe zones API unavailable (HTTP " +:+ pretty status_code +:+ ")")
  end.

(** The delay slept after a failed attempt that is not the last. *)
Definition delay_after (attempt : nat) (outcome : PostOutcome) : Z :=
  match outcome with
  | PostTimeout => 2 * (Z.of_nat attempt + 1)
  | PostRaises => 2
  | PostResponse status_code _ =>
      if status_code =? 504 then 2 * (Z.of_nat attempt + 1) else 2
  end.

(** Attempt [k] is the first one answered 200. *)
Definition first_ok (overpass : nat → PostOutcome) (k : nat)
    (json : string + OverpassData) : Prop :=
  (k < 3)%nat ∧ overpass k = PostResponse 200 json
  ∧ ∀ j json', (j < k)%nat → overpass j ≠ PostResponse 200 json'.

(** The order the zones are listed in. *)
Definition nearer (a b : SafeZone) : Prop := (zone_distance a <= zone_distance b)%Q.

(** A body with no key at all. *)
Definition empty_body : CheckBody :=
  {| body_landslide_risk := None; body_flood_risk := None; body_rainfall := None;
     body_location := None |}.

(** ** Sample inputs for the lookups *)

(** Renders a float by its integer part only; stands in for [.4f]. *)
Definition sample_format_4f (q : Q) : string := pretty (Qnum q / Z.pos (Qden q)).

Definition equator_settings : AlertSettings :=
  {| email := EmptyString; phone := EmptyString;
     landslide_threshold := 70; flood_threshold := 60; rainfall_threshold := 100;
     enable_email := false; enable_sms := false;
     alert_location := "Quito"; alert_lat := Some 0%Q; alert_lng := Some (-78)%Q |}.

Definition kolkata_settings : AlertSettings :=
  {| email := EmptyString; phone := EmptyString;
     landslide_threshold := 70; flood_threshold := 60; rainfall_threshold := 100;
     enable_email := false; enable_sms := false;
     alert_location := "Kolkata"; alert_lat := Some 22%Q; alert_lng := Some 88%Q |}.

(** A geocoder that knows the state and the country but not the city. *)
Definition sample_nominatim (lat lon : Q) : HttpOutcome NominatimData :=
  Responded 200
    (Some {| address := Some {| city := Some EmptyString; state_district := None;
                                state := Some "West Bengal";
                                country := Some "India" |} |}).

Definition sample_article (n : Z) : Article :=
  {| article_title := Some ("Storm " +:+ pretty n); article_description := None;
     article_source := Some None; article_url := None;
     article_publishedAt := None; article_image := None |}.

(** A news search that answers with eight articles. *)
Definition sample_gnews (query : string) : HttpOutcome GNewsData :=
  Responded 200 (Some {| articles := Some (map sample_article [1; 2; 3; 4; 5; 6; 7; 8]) |}).

Definition sample_element (amenity : string) (lat2 : Q) : Element :=
  {| elem_tags := Some {| tag_amenity := Some amenity; tag_emergency := None;
                          tag_name := None; tag_addr_full := None |};
     elem_lat := Some lat2; elem_lon := None |}.

(** Two gateway timeouts, then an answer with three elements. *)
Definition sample_overpass (attempt : nat) : PostOutcome :=
  match attempt with
  | 0%nat => PostResponse 504 (inl "no body")
  | 1%nat => PostTimeout
  | _ => PostResponse 200
           (inr {| elements :=
                     Some [sample_element "police" 7; sample_element "hospital" 3;
                           sample_element "shelter" 7] |})
  end.

(** Stands in for the rounded haversine distance: the latitude of the far
    point. *)
Definition sample_distance (lat lon lat2 lon2 : Q) : string + Q := inr lat2.

(** A distance computation that raises for the far point at latitude 7. *)
Definition raising_distance (lat lon lat2 lon2 : Q) : string + Q :=
  if Qeq_bool lat2 7 then inl "math domain error" else inr lat2.

(** ** Proof automation *)

Lemma number_ge_spec n z :
  BoolSpec (inject_Z z <= number_value n)%Q (number_value n < inject_Z z)%Q
           (number_ge n z).
Proof.
  unfold number_ge. destruct (Qle_bool _ _) eqn:E; constructor.
  - by apply Qle_bool_iff.
  - apply Qnot_le_lt. intros H. apply Qle_bool_iff in H. congruence.
Qed.

Ltac case_geb :=
  repeat match goal with
  | |- context [number_ge ?a ?b] => destruct (number_ge_spec a b)
  end.

(** Linear arithmetic over the exact values, ints read as rationals. *)
Ltac q_arith := unfold inject_Z in *; cbn [number_value] in *; lra.

(** ** The alert evaluator, block by block *)

Lemma check_landslide_appends settings v location current_time l h :
  check_landslide settings v location current_time (l, h)
  = let new := if number_ge v (landslide_threshold settings)
               then [landslide_alert settings v location current_time h] else [] in
    (l ++ new, h ++ new).
Proof.
  unfold check_landslide. destruct (number_ge v _); cbn [fst snd]; by rewrite ?app_nil_r.
Qed.

Lemma check_flood_appends settings v location current_time l h :
  check_flood settings v location current_time (l, h)
  = let new := if number_ge v (flood_threshold settings)
               then [flood_alert settings v location current_time h] else [] in
    (l ++ new, h ++ new).
Proof.
  unfold check_flood. destruct (number_ge v _); cbn [fst snd]; by rewrite ?app_nil_r.
Qed.

Lemma check_rainfall_appends settings v location current_time l h :
  check_rainfall settings v location current_time (l, h)
  = let new := if number_ge v (rainfall_threshold settings)
               then [rainfall_alert settings v location current_time h] else [] in
    (l ++ new, h ++ new).
Proof.
  unfold check_rainfall. destruct (number_ge v _); cbn [fst snd]; by rewrite ?app_nil_r.
Qed.

(** A configured call, block by block: what each block appends, and how the
    response, the history and the sender calls are made of it. *)
Lemma check_alerts_configured env data user_id current_time st settings :
  user_alert_settings st !! user_id = Some settings →
  let landslide_risk := default (Int 0) (body_landslide_risk data) in
  let flood_risk := default (Int 0) (body_flood_risk data) in
  let rainfall := default (Int 0) (body_rainfall data) in
  let location := default "Unknown Location" (body_location data) in
  let h := alert_history st in
  ∃ nl nf nr,
    nl = (if number_ge landslide_risk (landslide_threshold settings)
          then [landslide_alert settings landslide_risk location current_time h]
          else [])
    ∧ nf = (if number_ge flood_risk (flood_threshold settings)
            then [flood_alert settings flood_risk location current_time (h ++ nl)]
            else [])
    ∧ nr = (if number_ge rainfall (rainfall_threshold settings)
            then [rainfall_alert settings rainfall location current_time
                    ((h ++ nl) ++ nf)]
            else [])
    ∧ check_alerts env data user_id current_time st
      = {| response :=
             {| status := "success"; alerts := nl ++ nf ++ nr;
                response_message := None;
                notifications :=
                  Some {| email_sent :=
                            d_email_sent (notify_all env settings (nl ++ nf ++ nr));
                          sms_sent :=
                            d_sms_sent (notify_all env settings (nl ++ nf ++ nr)) |} |};
           state_after :=
             {| alert_history := h ++ nl ++ nf ++ nr;
                user_alert_settings := user_alert_settings st;
                otp_storage := otp_storage st |};
           calls := d_calls (notify_all env settings (nl ++ nf ++ nr)) |}.
Proof.
  intros Hs lr fr rf loc h. unfold check_alerts. rewrite Hs. fold lr fr rf loc h.
  rewrite check_landslide_appends; cbv zeta.
  rewrite check_flood_appends; cbv zeta.
  rewrite check_rainfall_appends; cbv zeta.
  cbn [fst snd app].
  eexists _, _, _. repeat split; try reflexivity.
  by rewrite <- !app_assoc.
Qed.

Example sample_check_alerts :
  map (λ a, (id a, type a, level a, value a, threshold a))
      (alerts (response (check_alerts env_up sample_body "default" sample_time
                           sample_state)))
  = [(1, Landslide, WARNING, Int 72, 10); (2, Flood, EMERGENCY, Int 80, 60)].
Proof. reflexivity. Qed.

(** Float readings just under and exactly on an edge: 84.5 is a WARNING, not
    an EMERGENCY; 59.99 does not reach the threshold 60; 100.0 reaches the
    threshold 100 and is a WARNING. *)
Example float_check_alerts :
  map (λ a, (id a, type a, level a, message a))
      (alerts (response (check_alerts env_down float_body "default" sample_time
                           sample_state)))
  = [(1, Landslide, WARNING, "Landslide risk at 84.5% exceeds threshold");
     (2, HeavyRainfall, WARNING, "Rainfall at 100.0mm exceeds threshold")].
Proof. reflexivity. Qed.

(** C1: with settings present, each of the three metrics is checked on its
    own: a reading (an int or a float) at or above the user's threshold for
    it produces exactly one alert of that type in the call, a reading below
    it produces none; the call therefore returns between zero and three
    alerts. *)
Theorem C1_one_alert_per_crossed_metric env data user_id current_time st settings :
  user_alert_settings st !! user_id = Some settings →
  let produced := alerts (response (check_alerts env data user_id current_time st)) in
  let landslide_risk := default (Int 0) (body_landslide_risk data) in
  let flood_risk := default (Int 0) (body_flood_risk data) in
  let rainfall := default (Int 0) (body_rainfall data) in
  ((inject_Z (landslide_threshold settings) <= number_value landslide_risk)%Q →
   count_type Landslide produced = 1%nat) ∧
  ((number_value landslide_risk < inject_Z (landslide_threshold settings))%Q →
   count_type Landslide produced = 0%nat) ∧
  ((inject_Z (flood_threshold settings) <= number_value flood_risk)%Q →
   count_type Flood produced = 1%nat) ∧
  ((number_value flood_risk < inject_Z (flood_threshold settings))%Q →
   count_type Flood produced = 0%nat) ∧
  ((inject_Z (rainfall_threshold settings) <= number_value rainfall)%Q →
   count_type HeavyRainfall produced = 1%nat) ∧
  ((number_value rainfall < inject_Z (rainfall_threshold settings))%Q →
   count_type HeavyRainfall produced = 0%nat) ∧
  length produced =
    (count_type Landslide produced + count_type Flood produced
     + count_type HeavyRainfall produced)%nat ∧
  (length produced ≤ 3)%nat.
Proof.
  intros Hs produced lr fr rf.
  destruct (check_alerts_configured env data user_id current_time st settings Hs)
    as (nl & nf & nr & Hnl & Hnf & Hnr & Heq).
  fold lr fr rf in Hnl, Hnf, Hnr.
  assert (produced = nl ++ nf ++ nr) as -> by (unfold produced; by rewrite Heq).
  clear Heq. unfold count_type. clearbody lr fr rf.
  destruct (number_ge_spec lr (landslide_threshold settings)),
           (number_ge_spec fr (flood_threshold settings)),
           (number_ge_spec rf (rainfall_threshold settings));
    subst nl nf nr; cbn [app filter list_filter length type landslide_alert flood_alert
                         rainfall_alert decide_rel decide AlertType_eq_dec
                         AlertType_rec AlertType_rect sumbool_rec sumbool_rect Nat.add];
    repeat split; intros; first [reflexivity | lia | exfalso; q_arith].
Qed.

Lemma C1_witness :
  let produced := alerts (response (check_alerts env_up float_body "default"
                                      sample_time sample_state)) in
  count_type Landslide produced = 1%nat ∧ count_type Flood produced = 0%nat
  ∧ count_type HeavyRainfall produced = 1%nat.
Proof.
  pose proof (C1_one_alert_per_crossed_metric env_up float_body "default"
                sample_time sample_state sample_settings eq_refl)
    as (Hl & _ & _ & Hf & Hr & _).
  split; [apply Hl | split; [apply Hf | apply Hr]]; vm_compute; congruence.
Defined.

(** C2: the severity of every produced alert comes from fixed bands on the
    reading, whatever base threshold the user configured: landslide EMERGENCY
    from 85, WARNING from 70, else WATCH; flood EMERGENCY from 80, WARNING
    from 60, else WATCH; rainfall EMERGENCY from 150, WARNING from 100, else
    WATCH; every band contains its lower edge, and readings are compared by
    their exact value, ints and floats alike. *)
Theorem C2_severity_from_fixed_bands env data user_id current_time st a :
  a ∈ alerts (response (check_alerts env data user_id current_time st)) →
  match type a with
  | Landslide =>
      value a = default (Int 0) (body_landslide_risk data) ∧
      ((85 <= number_value (value a))%Q → level a = EMERGENCY) ∧
      ((70 <= number_value (value a))%Q ∧ (number_value (value a) < 85)%Q →
       level a = WARNING) ∧
      ((number_value (value a) < 70)%Q → level a = WATCH)
  | Flood =>
      value a = default (Int 0) (body_flood_risk data) ∧
      ((80 <= number_value (value a))%Q → level a = EMERGENCY) ∧
      ((60 <= number_value (value a))%Q ∧ (number_value (value a) < 80)%Q →
       level a = WARNING) ∧
      ((number_value (value a) < 60)%Q → level a = WATCH)
  | HeavyRainfall =>
      value a = default (Int 0) (body_rainfall data) ∧
      ((150 <= number_value (value a))%Q → level a = EMERGENCY) ∧
      ((100 <= number_value (value a))%Q ∧ (number_value (value a) < 150)%Q →
       level a = WARNING) ∧
      ((number_value (value a) < 100)%Q → level a = WATCH)
  end.
Proof.
  destruct (user_alert_settings st !! user_id) as [settings|] eqn:Hs.
  2: { unfold check_alerts. rewrite Hs. by intros ?%elem_of_nil. }
  destruct (check_alerts_configured env data user_id current_time st settings Hs)
    as (nl & nf & nr & Hnl & Hnf & Hnr & ->).
  cbn [response alerts]. rewrite !elem_of_app.
  intros [Ha|[Ha|Ha]]; [subst nl|subst nf|subst nr];
    (destruct (number_ge _ _) in Ha; [apply list_elem_of_singleton in Ha as ->
                                     |by apply elem_of_nil in Ha]);
    cbn [type value level landslide_alert flood_alert rainfall_alert];
    case_geb; repeat split; intros;
    first [reflexivity | exfalso; q_arith].
Qed.

Lemma C2_witness :
  ∃ a, a ∈ alerts (response (check_alerts env_up sample_body "default" sample_time
                               sample_state))
       ∧ type a = Landslide ∧ value a = Int 72 ∧ threshold a = 10 ∧ level a = WARNING.
Proof.
  set (a := {| id := 1; type := Landslide; level := WARNING; value := Int 72;
               threshold := 10;
               message := "Landslide risk at 72% exceeds threshold";
               location := "Kolkata, India"; timestamp := sample_time |}).
  assert (Hin : a ∈ alerts (response (check_alerts env_up sample_body "default"
                                        sample_time sample_state)))
    by (apply elem_of_cons; left; reflexivity).
  exists a. split; [exact Hin|].
  pose proof (C2_severity_from_fixed_bands _ _ _ _ _ _ Hin) as (_ & _ & Hw & _).
  split; [reflexivity|]. split; [reflexivity|]. split; [reflexivity|].
  apply Hw. split; vm_compute; congruence.
Defined.

(** The band edge itself belongs to the higher band. *)
Example flood_80_is_emergency :
  map (λ a, (type a, level a))
      (alerts (response (check_alerts env_down
         {| body_landslide_risk := None; body_flood_risk := Some (Int 80);
            body_rainfall := None; body_location := None |}
         "default" sample_time sample_state)))
  = [(Flood, EMERGENCY)].
Proof. reflexivity. Qed.

(** A reading that crosses a low base threshold but no band is a WATCH. *)
Example landslide_12_threshold_10_is_watch :
  map (λ a, (type a, level a, threshold a))
      (alerts (response (check_alerts env_down
         {| body_landslide_risk := Some (Int 12); body_flood_risk := None;
            body_rainfall := None; body_location := None |}
         "default" sample_time sample_state)))
  = [(Landslide, WATCH, 10)].
Proof. reflexivity. Qed.

(** ** The notification loop *)

Lemma truthy_true s : truthy s = true ↔ s ≠ EmptyString.
Proof.
  unfold truthy. rewrite negb_true_iff. destruct (String.eqb_spec s EmptyString); split; congruence.
Qed.

Lemma foldl_notify env settings l d :
  let d' := foldl (notify env settings) d l in
  d_email_sent d'
    = d_email_sent d
      || (enable_email settings && truthy (email settings)
          && existsb (send_email_alert env (email settings)) l)
  ∧ d_sms_sent d'
    = d_sms_sent d
      || (enable_sms settings && truthy (phone settings)
          && existsb (send_sms_alert env (phone settings)) l)
  ∧ d_calls d' = d_calls d ++ flat_map (calls_for settings) l.
Proof.
  revert d. induction l as [|a l IH]; intros d; cbn [foldl existsb flat_map].
  - rewrite !andb_false_r, !orb_false_r, app_nil_r. done.
  - destruct (IH (notify env settings d a)) as (He & Hs & Hc).
    cbv zeta. rewrite He, Hs, Hc. clear.
    unfold notify, notify_email, notify_sms, calls_for.
    destruct (enable_email settings && truthy (email settings)),
             (enable_sms settings && truthy (phone settings)),
             (send_email_alert env (email settings) a),
             (send_sms_alert env (phone settings) a), (d_email_sent d), (d_sms_sent d);
      cbn; rewrite <- ?app_assoc; done.
Qed.

Lemma notify_all_email_sent env settings l :
  d_email_sent (notify_all env settings l) = true
  ↔ enable_email settings = true ∧ email settings ≠ EmptyString
    ∧ ∃ a, a ∈ l ∧ send_email_alert env (email settings) a = true.
Proof.
  unfold notify_all. destruct (foldl_notify env settings l
    {| d_email_sent := false; d_sms_sent := false; d_calls := [] |}) as (-> & _ & _).
  cbn. rewrite !andb_true_iff, truthy_true, existsb_exists.
  setoid_rewrite list_elem_of_In. tauto.
Qed.

Lemma notify_all_sms_sent env settings l :
  d_sms_sent (notify_all env settings l) = true
  ↔ enable_sms settings = true ∧ phone settings ≠ EmptyString
    ∧ ∃ a, a ∈ l ∧ send_sms_alert env (phone settings) a = true.
Proof.
  unfold notify_all. destruct (foldl_notify env settings l
    {| d_email_sent := false; d_sms_sent := false; d_calls := [] |}) as (_ & -> & _).
  cbn. rewrite !andb_true_iff, truthy_true, existsb_exists.
  setoid_rewrite list_elem_of_In. tauto.
Qed.

Lemma notify_all_calls env settings l :
  d_calls (notify_all env settings l) = flat_map (calls_for settings) l.
Proof.
  unfold notify_all. by destruct (foldl_notify env settings l
    {| d_email_sent := false; d_sms_sent := false; d_calls := [] |}) as (_ & _ & ->).
Qed.

Lemma guard_true (b : bool) (s : string) :
  b && truthy s = true ↔ b = true ∧ s ≠ EmptyString.
Proof. by rewrite andb_true_iff, truthy_true. Qed.

Lemma email_call_in_calls settings l to_email a :
  EmailCall to_email a ∈ flat_map (calls_for settings) l
  ↔ enable_email settings = true ∧ email settings ≠ EmptyString
    ∧ to_email = email settings ∧ a ∈ l.
Proof.
  rewrite list_elem_of_In, in_flat_map. setoid_rewrite <- list_elem_of_In.
  unfold calls_for. split.
  - intros (b & Hb & Hin). apply elem_of_app in Hin as [Hin|Hin].
    + destruct (enable_email settings && truthy (email settings)) eqn:Hg;
        [|by apply elem_of_nil in Hin].
      apply guard_true in Hg as [??].
      apply list_elem_of_singleton in Hin. by simplify_eq.
    + destruct (enable_sms settings && truthy (phone settings));
        [|by apply elem_of_nil in Hin].
      apply list_elem_of_singleton in Hin. discriminate.
  - intros (He & Hm & -> & Hin). exists a. split; [done|].
    apply elem_of_app. left.
    rewrite (proj2 (guard_true _ _) (conj He Hm)). by apply list_elem_of_singleton.
Qed.

Lemma sms_call_in_calls settings l to_phone a :
  SmsCall to_phone a ∈ flat_map (calls_for settings) l
  ↔ enable_sms settings = true ∧ phone settings ≠ EmptyString
    ∧ to_phone = phone settings ∧ a ∈ l.
Proof.
  rewrite list_elem_of_In, in_flat_map. setoid_rewrite <- list_elem_of_In.
  unfold calls_for. split.
  - intros (b & Hb & Hin). apply elem_of_app in Hin as [Hin|Hin].
    + destruct (enable_email settings && truthy (email settings));
        [|by apply elem_of_nil in Hin].
      apply list_elem_of_singleton in Hin. discriminate.
    + destruct (enable_sms settings && truthy (phone settings)) eqn:Hg;
        [|by apply elem_of_nil in Hin].
      apply guard_true in Hg as [??].
      apply list_elem_of_singleton in Hin. by simplify_eq.
  - intros (He & Hm & -> & Hin). exists a. split; [done|].
    apply elem_of_app. right.
    rewrite (proj2 (guard_true _ _) (conj He Hm)). by apply list_elem_of_singleton.
Qed.

(** Reduces a goal about a configured call to one about the alerts [produced]
    by its three blocks. *)
Ltac configured env data user_id current_time st settings Hs produced :=
  let nl := fresh "nl" in let nf := fresh "nf" in let nr := fresh "nr" in
  let Heq := fresh "Heq" in
  destruct (check_alerts_configured env data user_id current_time st settings Hs)
    as (nl & nf & nr & _ & _ & _ & Heq);
  rewrite ?Heq; cbn [response alerts state_after calls notifications];
  clear Heq; generalize (nl ++ nf ++ nr); intros produced.

(** ** Notification channels *)

(** C4: in a call with settings present, a sender is called for an alert only
    when its channel's enable flag is true and its contact field is not
    empty (and then with that contact and an alert of this call); the
    returned [email_sent] flag is true exactly when some alert of the call
    was handed to the email sender and the sender reported success, and
    likewise [sms_sent] for SMS. *)
Theorem C4_channel_gates_and_any_flags env data user_id current_time st settings :
  user_alert_settings st !! user_id = Some settings →
  let res := check_alerts env data user_id current_time st in
  (∀ to_email a, EmailCall to_email a ∈ calls res →
     enable_email settings = true ∧ email settings ≠ EmptyString
     ∧ to_email = email settings ∧ a ∈ alerts (response res))
  ∧ (∀ to_phone a, SmsCall to_phone a ∈ calls res →
     enable_sms settings = true ∧ phone settings ≠ EmptyString
     ∧ to_phone = phone settings ∧ a ∈ alerts (response res))
  ∧ ∃ n, notifications (response res) = Some n
    ∧ (email_sent n = true ↔
       ∃ a, a ∈ alerts (response res) ∧ EmailCall (email settings) a ∈ calls res
            ∧ send_email_alert env (email settings) a = true)
    ∧ (sms_sent n = true ↔
       ∃ a, a ∈ alerts (response res) ∧ SmsCall (phone settings) a ∈ calls res
            ∧ send_sms_alert env (phone settings) a = true).
Proof.
  intros Hs res. subst res. configured env data user_id current_time st settings Hs produced.
  rewrite notify_all_calls.
  split; [by intros ?? ?%email_call_in_calls|].
  split; [by intros ?? ?%sms_call_in_calls|].
  eexists. split; [reflexivity|]. cbn [email_sent sms_sent].
  rewrite notify_all_email_sent, notify_all_sms_sent.
  setoid_rewrite email_call_in_calls. setoid_rewrite sms_call_in_calls.
  split; split.
  - intros (He & Hm & a & Ha & Hsend). exists a. repeat split; assumption.
  - intros (a & Ha & (He & Hm & _ & _) & Hsend).
    repeat split; try assumption. exists a. split; assumption.
  - intros (He & Hm & a & Ha & Hsend). exists a. repeat split; assumption.
  - intros (a & Ha & (He & Hm & _ & _) & Hsend).
    repeat split; try assumption. exists a. split; assumption.
Qed.

Lemma C4_witness :
  enable_email sample_settings = true ∧ email sample_settings ≠ EmptyString
  ∧ "user@example.org" = email sample_settings
  ∧ sample_alert ∈ alerts (response (check_alerts env_up landslide_body "default"
                                       sample_time sample_state)).
Proof.
  apply (proj1 (C4_channel_gates_and_any_flags env_up landslide_body "default"
                  sample_time sample_state sample_settings eq_refl)
           "user@example.org" sample_alert).
  apply elem_of_cons. left. reflexivity.
Defined.

(** C6: for a user with no stored settings the call returns at once: an empty
    alert list with the message [No settings configured] and no notification
    flags, the stores (the history among them) untouched and no sender
    called; any call for a configured user answers without that message and
    with notification flags, so the two responses differ even when both
    alert lists are empty. *)
Theorem C6_not_configured_short_circuit env data user_id current_time st :
  user_alert_settings st !! user_id = None →
  let res := check_alerts env data user_id current_time st in
  response res = {| status := "success"; alerts := [];
                    response_message := Some "No settings configured";
                    notifications := None |}
  ∧ state_after res = st
  ∧ calls res = []
  ∧ ∀ env' data' user_id' current_time' st',
      is_Some (user_alert_settings st' !! user_id') →
      let res' := check_alerts env' data' user_id' current_time' st' in
      response_message (response res') = None
      ∧ is_Some (notifications (response res'))
      ∧ response res' ≠ response res.
Proof.
  intros Hn res.
  assert (Hres : res = {| response := {| status := "success"; alerts := [];
                                         response_message := Some "No settings configured";
                                         notifications := None |};
                          state_after := st; calls := [] |})
    by (unfold res, check_alerts; by rewrite Hn).
  rewrite Hres. clear Hres res. cbn [response state_after calls].
  split; [done|]. split; [done|]. split; [done|].
  intros env' data' user_id' current_time' st' [settings Hs].
  destruct (check_alerts_configured env' data' user_id' current_time' st' settings Hs)
    as (nl & nf & nr & _ & _ & _ & ->).
  cbn [response response_message notifications].
  split; [done|]. split; [by eexists|]. intros [=].
Qed.

Lemma C6_witness :
  response (check_alerts env_up sample_body "default" sample_time initial_state)
  = {| status := "success"; alerts := [];
       response_message := Some "No settings configured";
       notifications := None |}
  ∧ state_after (check_alerts env_up sample_body "default" sample_time initial_state)
    = initial_state
  ∧ calls (check_alerts env_up sample_body "default" sample_time initial_state) = [].
Proof.
  pose proof (C6_not_configured_short_circuit env_up sample_body "default"
                sample_time initial_state eq_refl) as (H1 & H2 & H3 & _).
  exact (conj H1 (conj H2 H3)).
Defined.

(** A configured user below every threshold: an empty list too, but no
    message and both flags present. *)
Example quiet_configured_response :
  response (check_alerts env_up quiet_body "default" sample_time sample_state)
  = {| status := "success"; alerts := []; response_message := None;
       notifications := Some {| email_sent := false; sms_sent := false |} |}.
Proof. reflexivity. Qed.

(** ** Failure isolation *)

Lemma send_email_alert_false env to_email a :
  RESEND_API_KEY env = EmptyString ∨ resend_send env to_email a = Raised →
  send_email_alert env to_email a = false.
Proof.
  unfold send_email_alert. intros [->| ->]; [done|].
  by destruct (negb _).
Qed.

Lemma send_sms_alert_false env to_phone a :
  twilio_configured env = false
  ∨ twilio_create env (sms_alert_body a) (TWILIO_PHONE_NUMBER env) (twilio_to to_phone)
    = Raised →
  send_sms_alert env to_phone a = false.
Proof.
  unfold send_sms_alert. intros [->| ->]; [done|].
  by destruct (twilio_configured env).
Qed.

(** C5: the two channels are isolated. Whatever the provider does (missing
    credentials, an exception) each sender returns [false] instead of
    raising; every alert of the call is handed to the SMS sender whenever
    SMS is enabled with a phone, whatever the email sender did, and the other
    way round; the alert list and the stores after the call do not depend on
    the outside world; and when every email send fails while an SMS send
    succeeds the response carries [email_sent = false], [sms_sent = true]. *)
Theorem C5_channels_isolated env data user_id current_time st settings :
  user_alert_settings st !! user_id = Some settings →
  let res := check_alerts env data user_id current_time st in
  (∀ to_email a,
     RESEND_API_KEY env = EmptyString ∨ resend_send env to_email a = Raised →
     send_email_alert env to_email a = false)
  ∧ (∀ to_phone a,
     twilio_configured env = false
     ∨ twilio_create env (sms_alert_body a) (TWILIO_PHONE_NUMBER env)
         (twilio_to to_phone) = Raised →
     send_sms_alert env to_phone a = false)
  ∧ (∀ a, a ∈ alerts (response res) →
     enable_sms settings = true → phone settings ≠ EmptyString →
     SmsCall (phone settings) a ∈ calls res)
  ∧ (∀ a, a ∈ alerts (response res) →
     enable_email settings = true → email settings ≠ EmptyString →
     EmailCall (email settings) a ∈ calls res)
  ∧ (∀ env',
     alerts (response (check_alerts env' data user_id current_time st))
     = alerts (response res)
     ∧ state_after (check_alerts env' data user_id current_time st) = state_after res)
  ∧ ((∀ a, a ∈ alerts (response res) →
        send_email_alert env (email settings) a = false) →
     (∃ a, a ∈ alerts (response res)
           ∧ send_sms_alert env (phone settings) a = true) →
     enable_sms settings = true → phone settings ≠ EmptyString →
     notifications (response res) = Some {| email_sent := false; sms_sent := true |}).
Proof.
  intros Hs res. subst res.
  split; [apply send_email_alert_false|].
  split; [apply send_sms_alert_false|].
  destruct (check_alerts_configured env data user_id current_time st settings Hs)
    as (nl & nf & nr & Hnl & Hnf & Hnr & Heq).
  rewrite !Heq. cbn [response alerts state_after calls notifications].
  rewrite notify_all_calls.
  split; [intros a Ha He Hp; by apply sms_call_in_calls|].
  split; [intros a Ha He Hp; by apply email_call_in_calls|].
  split.
  - intros env'.
    destruct (check_alerts_configured env' data user_id current_time st settings Hs)
      as (nl' & nf' & nr' & Hnl' & Hnf' & Hnr' & ->).
    cbn [response alerts state_after]. by subst.
  - intros Hfail Hsms He Hp. f_equal. f_equal.
    + apply not_true_is_false. rewrite notify_all_email_sent.
      intros (_ & _ & a & Ha & Hsent). by rewrite (Hfail a Ha) in Hsent.
    + by apply notify_all_sms_sent.
Qed.

Lemma C5_witness :
  notifications (response (check_alerts env_email_raises sample_body "default"
                             sample_time sample_state))
  = Some {| email_sent := false; sms_sent := true |}.
Proof.
  apply (C5_channels_isolated env_email_raises sample_body "default" sample_time
           sample_state sample_settings eq_refl).
  - intros a _. reflexivity.
  - eexists. split; [apply elem_of_cons; left; reflexivity | reflexivity].
  - reflexivity.
  - discriminate.
Defined.

Example email_fails_sms_succeeds :
  let res := check_alerts env_email_raises sample_body "default" sample_time
               sample_state in
  notifications (response res) = Some {| email_sent := false; sms_sent := true |}
  ∧ map type (alerts (response res)) = [Landslide; Flood]
  ∧ length (calls res) = 4%nat.
Proof. repeat split. Qed.

(** ** The alert history *)

(** Every call appends exactly the alerts it returns, and touches no other
    store. *)
Lemma check_alerts_history env data user_id current_time st :
  let res := check_alerts env data user_id current_time st in
  alert_history (state_after res) = alert_history st ++ alerts (response res)
  ∧ user_alert_settings (state_after res) = user_alert_settings st
  ∧ otp_storage (state_after res) = otp_storage st.
Proof.
  cbv zeta. destruct (user_alert_settings st !! user_id) as [settings|] eqn:Hs.
  - destruct (check_alerts_configured env data user_id current_time st settings Hs)
      as (nl & nf & nr & _ & _ & _ & ->). done.
  - unfold check_alerts. rewrite Hs. cbn. by rewrite app_nil_r.
Qed.

Lemma history_grows_by_alerts env data user_id current_time st :
  let res := check_alerts env data user_id current_time st in
  length (alert_history (state_after res))
  = (length (alert_history st) + length (alerts (response res)))%nat.
Proof.
  cbv zeta. destruct (check_alerts_history env data user_id current_time st) as (-> & _).
  apply length_app.
Qed.

Lemma clear_alert_history_empty st :
  alert_history (clear_alert_history st) = []
  ∧ get_alert_history 50 (clear_alert_history st) = [].
Proof. done. Qed.

Lemma slice_from_neg {A} (l : list A) (n : Z) :
  0 < n → slice_from l (- n) = drop (length l - Z.to_nat n) l.
Proof.
  intros Hn. unfold slice_from.
  destruct (Z.ltb_spec (- n) 0); [|lia]. f_equal. lia.
Qed.

(** For a positive limit the endpoint returns the last [limit] alerts, oldest
    first. *)
Lemma get_alert_history_positive limit st :
  0 < limit →
  get_alert_history limit st
  = drop (length (alert_history st) - Z.to_nat limit) (alert_history st)
  ∧ length (get_alert_history limit st)
    = Nat.min (Z.to_nat limit) (length (alert_history st))
  ∧ get_alert_history limit st `suffix_of` alert_history st.
Proof.
  intros Hl. unfold get_alert_history.
  assert (Heq : match alert_history st with
                | [] => []
                | _ :: _ => slice_from (alert_history st) (- limit)
                end = drop (length (alert_history st) - Z.to_nat limit) (alert_history st)).
  { destruct (alert_history st) eqn:Hh; [done|]. by apply slice_from_neg. }
  rewrite Heq. split; [done|]. split.
  - rewrite length_drop. lia.
  - apply suffix_drop.
Qed.

(** With limit 0 the slice is [alert_history[0:]]: the whole history. *)
Lemma get_alert_history_zero st : get_alert_history 0 st = alert_history st.
Proof.
  unfold get_alert_history. destruct (alert_history st) eqn:Hh; [done|].
  unfold slice_from. cbn -[drop]. done.
Qed.

(** C7: the history grows by exactly the alerts of each call and the clear
    operation empties it ([history_grows_by_alerts],
    [clear_alert_history_empty]), and a positive limit returns the most
    recent alerts, oldest first ([get_alert_history_positive]); at limit 0
    the endpoint does not return at most 0 alerts: after one alert has been
    recorded it returns that alert. *)
Theorem C7_limit_zero_returns_whole_history :
  let st := state_after (check_alerts env_down landslide_body "default" sample_time
                           sample_state) in
  alert_history st = [sample_alert]
  ∧ get_alert_history 0 st = [sample_alert]
  ∧ ¬ (length (get_alert_history 0 st) ≤ 0)%nat.
Proof.
  cbv zeta. split; [reflexivity|]. split; [reflexivity|].
  change (¬ (1 ≤ 0)%nat). lia.
Qed.

(** ** Alert ids *)

Lemma increasing_ids_from_consecutive (l : list Alert) (low base : Z) :
  low ≤ base →
  (∀ i a, l !! i = Some a → id a = base + Z.of_nat i + 1) →
  increasing_ids_from low l = true.
Proof.
  revert low base. induction l as [|b l IH]; intros low base Hlow Hl; [done|].
  cbn [increasing_ids_from]. pose proof (Hl 0%nat b eq_refl) as Hb.
  apply andb_true_iff. split; [apply Z.ltb_lt; lia|].
  apply (IH _ (base + 1)); [lia|].
  intros i a Hi. rewrite (Hl (S i) a Hi). lia.
Qed.

Lemma increasing_ids_consecutive (l : list Alert) (base : Z) :
  (∀ i a, l !! i = Some a → id a = base + Z.of_nat i + 1) →
  increasing_ids l = true.
Proof.
  destruct l as [|b l]; [done|]. intros Hl. cbn [increasing_ids].
  apply (increasing_ids_from_consecutive _ _ (base + 1)).
  - rewrite (Hl 0%nat b eq_refl). lia.
  - intros i a Hi. rewrite (Hl (S i) a Hi). lia.
Qed.

(** The alerts of one call are numbered from the history length on. *)
Lemma check_alerts_ids env data user_id current_time st i a :
  alerts (response (check_alerts env data user_id current_time st)) !! i = Some a →
  id a = Z.of_nat (length (alert_history st)) + Z.of_nat i + 1.
Proof.
  destruct (user_alert_settings st !! user_id) as [settings|] eqn:Hs.
  2: { unfold check_alerts. rewrite Hs. cbn. by rewrite lookup_nil. }
  destruct (check_alerts_configured env data user_id current_time st settings Hs)
    as (nl & nf & nr & Hnl & Hnf & Hnr & ->).
  cbn [response alerts].
  destruct (number_ge _ _) in Hnl; destruct (number_ge _ _) in Hnf;
    destruct (number_ge _ _) in Hnr;
    subst nl nf nr; cbn [app]; rewrite ?app_nil_r;
    destruct i as [|[|[|i]]]; cbn; intros [= <-]; cbn;
    rewrite ?length_app; cbn; lia.
Qed.

Lemma run_without_clear env rs : ∀ st,
  forallb (λ r, negb (is_clear r)) rs = true →
  alert_history (run env st rs).1 = alert_history st ++ (run env st rs).2
  ∧ ∀ i a, (run env st rs).2 !! i = Some a →
           id a = Z.of_nat (length (alert_history st)) + Z.of_nat i + 1.
Proof.
  induction rs as [|r rs IH]; intros st Hrs; cbn [run].
  { cbn. rewrite app_nil_r. split; [done|]. intros i a. by rewrite lookup_nil. }
  cbn [forallb] in Hrs. apply andb_true_iff in Hrs as [Hr Hrs].
  destruct (serve env st r) as [st1 created1] eqn:Hserve.
  specialize (IH st1 Hrs). destruct (run env st1 rs) as [st2 created2].
  cbn [fst snd] in *. destruct IH as [IHh IHi].
  assert (Hst1 : alert_history st1 = alert_history st ++ created1
                 ∧ ∀ i a, created1 !! i = Some a →
                     id a = Z.of_nat (length (alert_history st)) + Z.of_nat i + 1).
  { destruct r as [settings user_id|data user_id current_time|]; [| |done];
      cbn in Hserve; injection Hserve as <- <-.
    - cbn. rewrite app_nil_r. split; [done|]. intros i a. by rewrite lookup_nil.
    - split; [apply check_alerts_history|]. apply check_alerts_ids. }
  destruct Hst1 as [Hh1 Hi1]. split.
  - by rewrite IHh, Hh1, app_assoc.
  - intros i a Hi. apply lookup_app_Some in Hi as [Hi|[Hge Hi]]; [by apply Hi1|].
    rewrite (IHi _ _ Hi), Hh1, length_app. lia.
Qed.

(** C9, amended: every alert's id is the history length at its creation plus
    one, so the alerts of one call carry consecutive increasing ids, and over
    any stretch of requests without a clear the created alerts are exactly
    what is appended to the history, numbered consecutively from its length
    on and hence strictly increasing; a clear empties the history, after
    which numbering restarts at 1. *)
Theorem C9_ids_count_from_history_length env :
  (∀ data user_id current_time st i a,
     alerts (response (check_alerts env data user_id current_time st)) !! i = Some a →
     id a = Z.of_nat (length (alert_history st)) + Z.of_nat i + 1)
  ∧ (∀ st rs,
     forallb (λ r, negb (is_clear r)) rs = true →
     alert_history (run env st rs).1 = alert_history st ++ (run env st rs).2
     ∧ (∀ i a, (run env st rs).2 !! i = Some a →
               id a = Z.of_nat (length (alert_history st)) + Z.of_nat i + 1)
     ∧ increasing_ids (run env st rs).2 = true)
  ∧ (∀ st, alert_history (clear_alert_history st) = []).
Proof.
  split; [apply check_alerts_ids|]. split; [|done].
  intros st rs Hrs. destruct (run_without_clear env rs st Hrs) as [Hh Hi].
  split; [done|]. split; [done|].
  by apply (increasing_ids_consecutive _ (Z.of_nat (length (alert_history st)))).
Qed.

Lemma C9_witness :
  increasing_ids
    (run env_down initial_state
       [SaveAlertSettings sample_settings "default";
        CheckAlerts sample_body "default" sample_time;
        CheckAlerts landslide_body "default" sample_time]).2 = true.
Proof.
  apply (C9_ids_count_from_history_length env_down). reflexivity.
Defined.

Example ids_restart_after_clear :
  map id (run env_down initial_state
            [SaveAlertSettings sample_settings "default";
             CheckAlerts sample_body "default" sample_time;
             ClearAlertHistory;
             CheckAlerts landslide_body "default" sample_time]).2
  = [1; 2; 1].
Proof. reflexivity. Qed.

Lemma C9_counterexample :
  ¬ (∀ env rs, increasing_ids (run env initial_state rs).2 = true).
Proof.
  intros H.
  specialize (H env_down
                [SaveAlertSettings sample_settings "default";
                 CheckAlerts sample_body "default" sample_time;
                 ClearAlertHistory;
                 CheckAlerts landslide_body "default" sample_time]).
  vm_compute in H. discriminate H.
Qed.

(** ** OTP codes *)

Lemma pretty_N_char_digit (d : N) : is_digit (pretty_N_char d) = true.
Proof. unfold pretty_N_char. by repeat case_match. Qed.

(** [str] of a six-digit number, digit by digit. *)
Lemma pretty_six_digits (x : Z) :
  100000 ≤ x ≤ 999999 →
  let n := Z.to_N x in
  pretty x
  = String (pretty_N_char ((n `div` 100000) `mod` 10))
      (String (pretty_N_char ((n `div` 10000) `mod` 10))
         (String (pretty_N_char ((n `div` 1000) `mod` 10))
            (String (pretty_N_char ((n `div` 100) `mod` 10))
               (String (pretty_N_char ((n `div` 10) `mod` 10))
                  (String (pretty_N_char (n `mod` 10)) EmptyString)))))%N.
Proof.
  intros Hx n. destruct x as [|p|p]; try lia.
  change (pretty (Z.pos p)) with (pretty (N.pos p)).
  change (Z.to_N (Z.pos p)) with (N.pos p) in n.
  assert (Hn : (100000 ≤ n ≤ 999999)%N) by (unfold n; lia).
  fold n. clearbody n. clear Hx p.
  unfold pretty, pretty_N. destruct (decide (n = 0)%N); [lia|].
  assert ((n `div` 10) `div` 10 = n `div` 100)%N as E2 by (rewrite N.Div0.div_div; done).
  assert ((n `div` 100) `div` 10 = n `div` 1000)%N as E3 by (rewrite N.Div0.div_div; done).
  assert ((n `div` 1000) `div` 10 = n `div` 10000)%N as E4 by (rewrite N.Div0.div_div; done).
  assert ((n `div` 10000) `div` 10 = n `div` 100000)%N as E5 by (rewrite N.Div0.div_div; done).
  assert ((n `div` 100000) `div` 10 = 0)%N as E6.
  { rewrite N.Div0.div_div. apply N.div_small. lia. }
  assert (0 < n `div` 10)%N by (apply N.div_str_pos; lia).
  assert (0 < n `div` 100)%N by (apply N.div_str_pos; lia).
  assert (0 < n `div` 1000)%N by (apply N.div_str_pos; lia).
  assert (0 < n `div` 10000)%N by (apply N.div_str_pos; lia).
  assert (0 < n `div` 100000)%N by (apply N.div_str_pos; lia).
  rewrite pretty_N_go_step by lia.
  rewrite pretty_N_go_step, E2 by lia.
  rewrite pretty_N_go_step, E3 by lia.
  rewrite pretty_N_go_step, E4 by lia.
  rewrite pretty_N_go_step, E5 by lia.
  rewrite pretty_N_go_step, E6 by lia.
  apply pretty_N_go_0.
Qed.

Lemma six_digit_code (x : Z) :
  100000 ≤ x ≤ 999999 →
  String.length (pretty x) = 6%nat
  ∧ all_digits (pretty x) = true
  ∧ ∃ c s, pretty x = String c s ∧ c ≠ "0"%char.
Proof.
  intros Hx. rewrite (pretty_six_digits x Hx). cbv zeta.
  split; [done|]. split.
  - cbn [all_digits]. by rewrite !pretty_N_char_digit.
  - eexists _, _. split; [reflexivity|].
    assert (Hd : (1 ≤ (Z.to_N x `div` 100000) `mod` 10 < 10)%N).
    { rewrite N.mod_small.
      - split; [apply N.div_le_lower_bound|apply N.Div0.div_lt_upper_bound]; lia.
      - apply N.Div0.div_lt_upper_bound; lia. }
    intros Hc.
    apply (pretty_N_char_inj _ 0%N) in Hc; lia.
Qed.

(** ** OTP verification *)

(** C3: [verify_otp] per user: with no stored record it returns the
    no-OTP-found error and changes nothing; when now is past the stored
    expiry it returns the expired error and deletes the record; with a code
    different from the stored one (string comparison) it returns the
    invalid-OTP error and changes nothing; with the stored code, not past
    expiry, it returns success with the stored phone and the record stays,
    now with [verified = True]. Other users' records and the other stores
    are never touched. *)
Theorem C3_verify_otp_state_machine data now st :
  let user_id := default "default" (verify_user_id data) in
  let otp_entered := default EmptyString (verify_otp_entered data) in
  let res := verify_otp data now st in
  alert_history res.2 = alert_history st
  ∧ user_alert_settings res.2 = user_alert_settings st
  ∧ (∀ other, other ≠ user_id → otp_storage res.2 !! other = otp_storage st !! other)
  ∧ match otp_storage st !! user_id with
    | None =>
        res = (otp_error "No OTP found. Please request a new one.", st)
    | Some stored =>
        (expiry stored < now →
           res.1 = otp_error "OTP expired. Please request a new one."
           ∧ otp_storage res.2 = delete user_id (otp_storage st)
           ∧ otp_storage res.2 !! user_id = None)
        ∧ (now ≤ expiry stored → otp stored ≠ otp_entered →
           res = (otp_error "Invalid OTP. Please try again.", st))
        ∧ (now ≤ expiry stored → otp stored = otp_entered →
           res.1 = {| otp_status := "success";
                      otp_message := "Phone number verified successfully!";
                      otp_response_phone := Some (otp_phone stored) |}
           ∧ otp_storage res.2 !! user_id
             = Some {| otp_phone := otp_phone stored; otp := otp stored;
                       expiry := expiry stored; verified := true |})
    end.
Proof.
  intros user_id otp_entered res. unfold res, verify_otp. fold user_id otp_entered.
  destruct (otp_storage st !! user_id) as [stored|] eqn:Hst; [|done].
  destruct (Z.gtb_spec now (expiry stored)) as [Hexp|Hexp].
  { cbn [fst snd alert_history user_alert_settings otp_storage].
    split; [done|]. split; [done|].
    split; [intros other Ho; by rewrite lookup_delete_ne|].
    split; [intros _; by rewrite lookup_delete_eq|]. split; intros; lia. }
  destruct (String.eqb_spec (otp stored) otp_entered) as [Heq|Hne]; cbn [negb].
  - cbn [fst snd alert_history user_alert_settings otp_storage].
    split; [done|]. split; [done|].
    split; [intros other Ho; by rewrite lookup_insert_ne|].
    split; [intros; lia|]. split; [done|].
    intros _ _. by rewrite lookup_insert_eq.
  - cbn [fst snd]. split; [done|]. split; [done|]. split; [done|].
    split; [intros; lia|]. split; done.
Qed.

Lemma C3_witness :
  (verify_otp sample_verify_body 600000000 sample_otp_state).1
  = {| otp_status := "success";
       otp_message := "Phone number verified successfully!";
       otp_response_phone := Some "9163615366" |}
  ∧ otp_storage (verify_otp sample_verify_body 600000000 sample_otp_state).2
      !! "default"
    = Some {| otp_phone := "9163615366"; otp := "483920"; expiry := 600000000;
              verified := true |}.
Proof.
  pose proof (C3_verify_otp_state_machine sample_verify_body 600000000 sample_otp_state)
    as (_ & _ & _ & H).
  change (otp_storage sample_otp_state
            !! default "default" (verify_user_id sample_verify_body))
    with (Some sample_otp_record) in H.
  destruct H as (_ & _ & H). apply H; [cbn; lia | reflexivity].
Defined.

Example verify_sample_steps :
  (verify_otp sample_verify_body 0 initial_state).1
    = otp_error "No OTP found. Please request a new one."
  ∧ (verify_otp wrong_verify_body 0 sample_otp_state)
    = (otp_error "Invalid OTP. Please try again.", sample_otp_state)
  ∧ (verify_otp sample_verify_body 600000001 sample_otp_state).1
    = otp_error "OTP expired. Please request a new one."
  ∧ otp_storage (verify_otp sample_verify_body 600000001 sample_otp_state).2
      !! "default" = None
  ∧ (verify_otp sample_verify_body 600000000 sample_otp_state).1
    = {| otp_status := "success";
         otp_message := "Phone number verified successfully!";
         otp_response_phone := Some "9163615366" |}
  ∧ get_verification_status "default"
      (verify_otp sample_verify_body 600000000 sample_otp_state).2
    = (true, Some "9163615366").
Proof. repeat split. Qed.

(** ** OTP issuance *)

Lemma not_truthy s : negb (truthy s) = true ↔ s = EmptyString.
Proof.
  unfold truthy. rewrite negb_involutive. apply String.eqb_eq.
Qed.

(** With a phone in the body the record is stored whatever happens next. *)
Lemma send_verification_otp_stores env data now draw st :
  default EmptyString (send_phone data) ≠ EmptyString →
  (send_verification_otp env data now draw st).2
  = {| alert_history := alert_history st;
       user_alert_settings := user_alert_settings st;
       otp_storage :=
         <[default "default" (send_user_id data) :=
             {| otp_phone := default EmptyString (send_phone data);
                otp := pretty draw; expiry := now + ten_minutes;
                verified := false |}]> (otp_storage st) |}.
Proof.
  intros Hp. unfold send_verification_otp.
  destruct (negb (truthy _)) eqn:Ht; [by apply not_truthy in Ht|].
  destruct (twilio_configured env); [|done]. by destruct (twilio_create _ _ _ _).
Qed.

(** C8, amended: an issuance with a non-empty phone stores, over whatever
    record the user had, the phone, the code [str(draw)] for the integer
    [draw] that [random.randint(100000, 999999)] returned, the expiry
    now + 10 minutes and [verified = False]; the code is a string of six
    decimal digits whose first digit is not 0, and distinct draws give
    distinct codes (so a uniform draw gives a uniform code among "100000" ..
    "999999"); with an empty phone the call returns the phone-required error
    and changes nothing; with a phone and no SMS provider configured it
    returns a different error. *)
Theorem C8_issue_otp env data now draw st :
  100000 ≤ draw ≤ 999999 →
  let user_id := default "default" (send_user_id data) in
  let phone := default EmptyString (send_phone data) in
  let res := send_verification_otp env data now draw st in
  (phone ≠ EmptyString →
     otp_storage res.2 !! user_id
     = Some {| otp_phone := phone; otp := pretty draw; expiry := now + 600000000;
               verified := false |}
     ∧ String.length (pretty draw) = 6%nat
     ∧ all_digits (pretty draw) = true
     ∧ (∃ c s, pretty draw = String c s ∧ c ≠ "0"%char)
     ∧ (∀ draw', pretty draw' = pretty draw → draw' = draw))
  ∧ (phone = EmptyString → res = (otp_error "Phone number is required", st))
  ∧ (phone ≠ EmptyString → twilio_configured env = false →
     res.1 = otp_error "SMS service not configured. Please contact administrator."
     ∧ res.1 ≠ otp_error "Phone number is required").
Proof.
  intros Hdraw user_id phone res. split; [|split].
  - intros Hp. unfold res. rewrite send_verification_otp_stores by done.
    cbn [otp_storage]. fold user_id phone.
    split; [by rewrite lookup_insert_eq|].
    destruct (six_digit_code draw Hdraw) as (Hlen & Hdig & Hfirst).
    repeat split; try done. intros draw'. apply (inj pretty).
  - intros Hp. unfold res, send_verification_otp. fold phone. by rewrite Hp.
  - intros Hp Hc. unfold res, send_verification_otp. fold phone.
    destruct (negb (truthy phone)) eqn:Ht; [by apply not_truthy in Ht|].
    rewrite Hc. split; [done|]. intros [=].
Qed.

Lemma C8_witness :
  otp_storage (send_verification_otp env_up sample_send_body 0 483920 initial_state).2
    !! "default"
  = Some {| otp_phone := "9163615366"; otp := "483920"; expiry := 600000000;
            verified := false |}.
Proof.
  refine (proj1 (proj1 (C8_issue_otp env_up sample_send_body 0 483920 initial_state _) _)).
  - lia.
  - discriminate.
Defined.

Lemma C8_counterexample :
  ¬ ∃ draw rec,
      100000 ≤ draw ≤ 999999
      ∧ otp_storage (send_verification_otp env_up sample_send_body 0 draw
                       initial_state).2 !! "default" = Some rec
      ∧ otp rec = "000000".
Proof.
  intros (draw & rec & Hdraw & Hrec & Hotp).
  rewrite send_verification_otp_stores in Hrec by discriminate.
  cbn [otp_storage] in Hrec. rewrite lookup_insert_eq in Hrec.
  injection Hrec as <-. cbn [otp] in Hotp.
  destruct (six_digit_code draw Hdraw) as (_ & _ & c & s & Hcs & Hc).
  rewrite Hcs in Hotp. injection Hotp as Hc0 _. contradiction.
Qed.

(** C10: with a non-empty phone the new record, [verified = False] and a
    fresh expiry, replaces the user's record before the SMS provider is
    consulted: the stores after the call are the same whatever the provider
    does, also when the call returns the provider-not-configured error or
    the send-failure error, and the verification status read afterwards is
    unverified. *)
Theorem C10_record_replaced_before_delivery env data now draw st :
  default EmptyString (send_phone data) ≠ EmptyString →
  let user_id := default "default" (send_user_id data) in
  let res := send_verification_otp env data now draw st in
  otp_storage res.2 !! user_id
  = Some {| otp_phone := default EmptyString (send_phone data);
            otp := pretty draw; expiry := now + ten_minutes; verified := false |}
  ∧ get_verification_status user_id res.2 = (false, None)
  ∧ (twilio_configured env = false →
     res.1 = otp_error "SMS service not configured. Please contact administrator.")
  ∧ (twilio_configured env = true →
     twilio_create env (otp_sms_body (pretty draw)) (TWILIO_PHONE_NUMBER env)
       (twilio_to (default EmptyString (send_phone data))) = Raised →
     res.1 = otp_error "Failed to send verification code. Please try again later.")
  ∧ (∀ env', (send_verification_otp env' data now draw st).2 = res.2).
Proof.
  intros Hp user_id res.
  assert (Hst : res.2 = {| alert_history := alert_history st;
                           user_alert_settings := user_alert_settings st;
                           otp_storage :=
                             <[user_id :=
                                 {| otp_phone := default EmptyString (send_phone data);
                                    otp := pretty draw; expiry := now + ten_minutes;
                                    verified := false |}]> (otp_storage st) |})
    by by apply send_verification_otp_stores.
  split; [|split; [|split; [|split]]].
  - rewrite Hst. cbn [otp_storage]. by rewrite lookup_insert_eq.
  - rewrite Hst. unfold get_verification_status. cbn [otp_storage].
    by rewrite lookup_insert_eq.
  - intros Hc. unfold res, send_verification_otp.
    destruct (negb (truthy _)) eqn:Ht; [by apply not_truthy in Ht|]. by rewrite Hc.
  - intros Hc Hr. unfold res, send_verification_otp.
    destruct (negb (truthy _)) eqn:Ht; [by apply not_truthy in Ht|]. by rewrite Hc, Hr.
  - intros env'. rewrite Hst. by apply send_verification_otp_stores.
Qed.

Lemma C10_witness :
  get_verification_status "default" sample_verified_state = (true, Some "9163615366")
  ∧ (send_verification_otp env_down sample_send_body 0 123456 sample_verified_state).1
    = otp_error "SMS service not configured. Please contact administrator."
  ∧ get_verification_status "default"
      (send_verification_otp env_down sample_send_body 0 123456 sample_verified_state).2
    = (false, None).
Proof.
  split; [reflexivity|].
  assert (Hp : default EmptyString (send_phone sample_send_body) ≠ EmptyString)
    by discriminate.
  pose proof (C10_record_replaced_before_delivery env_down sample_send_body 0 123456
                sample_verified_state Hp) as (_ & Hstatus & Herr & _).
  split; [apply Herr; reflexivity | exact Hstatus].
Defined.

(** The three ways an issuance with a phone can answer; the stored record is
    the same in all of them. *)
Example issue_sample_outcomes :
  (send_verification_otp env_up sample_send_body 0 483920 initial_state).1
    = {| otp_status := "success";
         otp_message := "Verification code sent to 9163615366";
         otp_response_phone := None |}
  ∧ (send_verification_otp env_down sample_send_body 0 483920 initial_state).1
    = otp_error "SMS service not configured. Please contact administrator."
  ∧ (send_verification_otp env_twilio_raises sample_send_body 0 483920 initial_state).1
    = otp_error "Failed to send verification code. Please try again later."
  ∧ (send_verification_otp env_twilio_raises sample_send_body 0 483920 initial_state).2
    = sample_otp_state.
Proof. repeat split. Qed.

(** An issuance without a phone answers with an error and stores nothing. *)
Example issue_without_phone :
  send_verification_otp env_up {| send_user_id := None; send_phone := None |} 0 483920
    initial_state
  = (otp_error "Phone number is required", initial_state).
Proof. reflexivity. Qed.

(** ** The settings store, read and written *)

(** X1: a saved settings object is what a later read of that user returns; it
    replaces an earlier one of the same user, leaves every other user's
    settings as they were, and touches neither the history nor the OTP
    store. *)
Theorem settings_save_then_get settings user_id st :
  get_alert_settings user_id (save_alert_settings settings user_id st) = settings
  ∧ (∀ other, other ≠ user_id →
       get_alert_settings other (save_alert_settings settings user_id st)
       = get_alert_settings other st)
  ∧ (∀ older,
       save_alert_settings settings user_id (save_alert_settings older user_id st)
       = save_alert_settings settings user_id st)
  ∧ alert_history (save_alert_settings settings user_id st) = alert_history st
  ∧ otp_storage (save_alert_settings settings user_id st) = otp_storage st.
Proof.
  unfold get_alert_settings, save_alert_settings. cbn.
  split; [by rewrite lookup_insert_eq|].
  split; [intros other Ho; by rewrite lookup_insert_ne|].
  split; [intros older; by rewrite insert_insert_eq|]. done.
Qed.

(** X2: for a user who never saved settings the settings endpoint shows the
    defaults (thresholds 70, 60, 100) without storing them, and the evaluator
    does not use them: whatever the readings, it produces no alert and
    changes nothing. *)
Theorem defaults_shown_but_not_evaluated env data user_id current_time st :
  user_alert_settings st !! user_id = None →
  get_alert_settings user_id st = default_settings
  ∧ landslide_threshold (get_alert_settings user_id st) = 70
  ∧ flood_threshold (get_alert_settings user_id st) = 60
  ∧ rainfall_threshold (get_alert_settings user_id st) = 100
  ∧ alerts (response (check_alerts env data user_id current_time st)) = []
  ∧ state_after (check_alerts env data user_id current_time st) = st.
Proof.
  intros Hn. unfold get_alert_settings, check_alerts. rewrite Hn. done.
Qed.

Lemma defaults_shown_but_not_evaluated_witness :
  landslide_threshold (get_alert_settings "default" initial_state) = 70
  ∧ default (Int 0) (body_landslide_risk landslide_body) = Int 90
  ∧ alerts (response (check_alerts env_up landslide_body "default" sample_time
                        initial_state)) = [].
Proof.
  pose proof (defaults_shown_but_not_evaluated env_up landslide_body "default"
                sample_time initial_state eq_refl) as (_ & H70 & _ & _ & Hno & _).
  split; [exact H70|]. split; [reflexivity|exact Hno].
Defined.

(** ** The OTP life cycle *)

(** X3: a code issued for a non-empty phone verifies for the same user up to
    and including ten minutes after issuance, whether or not the SMS could be
    sent: the answer is success with the phone, and the verification status
    goes from unverified to verified with that phone. *)
Theorem otp_issue_then_verify env data now draw st now' :
  default EmptyString (send_phone data) ≠ EmptyString →
  now' ≤ now + ten_minutes →
  let user_id := default "default" (send_user_id data) in
  let phone := default EmptyString (send_phone data) in
  let issued := (send_verification_otp env data now draw st).2 in
  let body := {| verify_user_id := send_user_id data;
                 verify_otp_entered := Some (pretty draw) |} in
  (verify_otp body now' issued).1
  = {| otp_status := "success";
       otp_message := "Phone number verified successfully!";
       otp_response_phone := Some phone |}
  ∧ get_verification_status user_id issued = (false, None)
  ∧ get_verification_status user_id (verify_otp body now' issued).2 = (true, Some phone).
Proof.
  intros Hp Hnow user_id phone issued body.
  unfold issued. rewrite send_verification_otp_stores by done. fold user_id phone.
  unfold verify_otp, get_verification_status.
  cbn [verify_user_id verify_otp_entered otp_storage].
  fold user_id. rewrite !lookup_insert_eq. cbn [expiry otp verified otp_phone].
  destruct (Z.gtb_spec now' (now + ten_minutes)); [lia|].
  rewrite String.eqb_refl. cbn [negb fst snd otp_storage].
  rewrite lookup_insert_eq. done.
Qed.

Lemma otp_issue_then_verify_witness :
  (verify_otp sample_verify_body 600000000
     (send_verification_otp env_down sample_send_body 0 483920 initial_state).2).1
  = {| otp_status := "success";
       otp_message := "Phone number verified successfully!";
       otp_response_phone := Some "9163615366" |}.
Proof.
  refine (proj1 (otp_issue_then_verify env_down sample_send_body 0 483920
                   initial_state 600000000 _ _)).
  - discriminate.
  - unfold ten_minutes. lia.
Defined.

(** X4: more than ten minutes after issuance a verification attempt, with
    whatever code, answers that the OTP expired and removes the record: the
    status is unverified and any further attempt finds no OTP. *)
Theorem otp_expired_code_is_discarded env data now draw st now' entered later :
  default EmptyString (send_phone data) ≠ EmptyString →
  now + ten_minutes < now' →
  let user_id := default "default" (send_user_id data) in
  let issued := (send_verification_otp env data now draw st).2 in
  let body := {| verify_user_id := send_user_id data;
                 verify_otp_entered := entered |} in
  let after := (verify_otp body now' issued).2 in
  (verify_otp body now' issued).1 = otp_error "OTP expired. Please request a new one."
  ∧ otp_storage after !! user_id = None
  ∧ get_verification_status user_id after = (false, None)
  ∧ verify_otp body later after
    = (otp_error "No OTP found. Please request a new one.", after).
Proof.
  intros Hp Hnow user_id issued body after.
  assert (Hafter : (verify_otp body now' issued)
                   = (otp_error "OTP expired. Please request a new one.",
                      {| alert_history := alert_history st;
                         user_alert_settings := user_alert_settings st;
                         otp_storage := delete user_id (otp_storage issued) |})).
  { unfold issued. rewrite send_verification_otp_stores by done. fold user_id.
    unfold verify_otp. cbn [verify_user_id verify_otp_entered otp_storage].
    fold user_id. rewrite lookup_insert_eq. cbn [expiry].
    destruct (Z.gtb_spec now' (now + ten_minutes)); [done|lia]. }
  unfold after. rewrite Hafter. cbn [fst snd].
  unfold get_verification_status, verify_otp.
  cbn [verify_user_id otp_storage]. fold user_id. rewrite !lookup_delete_eq.
  repeat split.
Qed.

Lemma otp_expired_code_is_discarded_witness :
  (verify_otp sample_verify_body 600000001
     (send_verification_otp env_up sample_send_body 0 483920 initial_state).2).1
  = otp_error "OTP expired. Please request a new one.".
Proof.
  refine (proj1 (otp_expired_code_is_discarded env_up sample_send_body 0 483920
                   initial_state 600000001 (Some "483920") 0 _ _)).
  - discriminate.
  - unfold ten_minutes. lia.
Defined.

(** X5: on a verified record, verifying again with the same code before expiry
    succeeds again and changes nothing, and a wrong code leaves it verified;
    but a verification attempt after expiry deletes the record, so a phone
    that was reported verified is reported unverified from then on. *)
Theorem verified_record_reverify_and_lapse data now st stored :
  otp_storage st !! default "default" (verify_user_id data) = Some stored →
  verified stored = true →
  let user_id := default "default" (verify_user_id data) in
  let entered := default EmptyString (verify_otp_entered data) in
  (now ≤ expiry stored → otp stored = entered →
     verify_otp data now st
     = ({| otp_status := "success";
           otp_message := "Phone number verified successfully!";
           otp_response_phone := Some (otp_phone stored) |}, st))
  ∧ (now ≤ expiry stored → otp stored ≠ entered →
     get_verification_status user_id (verify_otp data now st).2
     = (true, Some (otp_phone stored)))
  ∧ (expiry stored < now →
     get_verification_status user_id st = (true, Some (otp_phone stored))
     ∧ get_verification_status user_id (verify_otp data now st).2 = (false, None)).
Proof.
  intros Hst Hv user_id entered. unfold verify_otp, get_verification_status.
  fold user_id entered. fold user_id in Hst. rewrite Hst.
  destruct (Z.gtb_spec now (expiry stored)) as [Hexp|Hexp].
  - split; [intros; lia|]. split; [intros; lia|]. intros _.
    rewrite Hv. cbn [snd otp_storage]. by rewrite lookup_delete_eq.
  - split; [|split; [|intros; lia]].
    + intros _ Heq. rewrite Heq, String.eqb_refl. cbn [negb]. f_equal.
      destruct st as [h s o]. cbn in *. f_equal.
      apply insert_id. rewrite Hst. f_equal. destruct stored; cbn in *. by subst.
    + intros _ Hne. destruct (String.eqb_spec (otp stored) entered); [done|].
      cbn [negb snd]. by rewrite Hst, Hv.
Qed.

Lemma verified_record_reverify_and_lapse_witness :
  get_verification_status "default" sample_verified_state = (true, Some "9163615366")
  ∧ verify_otp sample_verify_body 1 sample_verified_state
    = ({| otp_status := "success";
          otp_message := "Phone number verified successfully!";
          otp_response_phone := Some "9163615366" |}, sample_verified_state)
  ∧ get_verification_status "default"
      (verify_otp sample_verify_body 600000001 sample_verified_state).2
    = (false, None).
Proof.
  pose proof (verified_record_reverify_and_lapse sample_verify_body 1
                sample_verified_state
                {| otp_phone := "9163615366"; otp := "483920"; expiry := 600000000;
                   verified := true |} eq_refl eq_refl) as (Hre & _ & _).
  pose proof (verified_record_reverify_and_lapse sample_verify_body 600000001
                sample_verified_state
                {| otp_phone := "9163615366"; otp := "483920"; expiry := 600000000;
                   verified := true |} eq_refl eq_refl) as (_ & _ & Hlapse).
  cbn [expiry otp otp_phone] in Hre, Hlapse.
  split; [reflexivity|]. split.
  - apply Hre; [lia | reflexivity].
  - apply Hlapse. lia.
Defined.

(** ** The history endpoint at any limit *)

(** X6: whatever the limit, the endpoint returns a trailing part of the history;
    a negative limit [-k] drops the [k] oldest alerts, and a limit of at
    least the history length returns everything. *)
Theorem get_alert_history_any_limit limit st :
  get_alert_history limit st `suffix_of` alert_history st
  ∧ (limit < 0 →
     get_alert_history limit st = drop (Z.to_nat (- limit)) (alert_history st))
  ∧ (Z.of_nat (length (alert_history st)) ≤ limit →
     get_alert_history limit st = alert_history st).
Proof.
  unfold get_alert_history.
  assert (Heq : match alert_history st with
                | [] => []
                | _ :: _ => slice_from (alert_history st) (- limit)
                end = slice_from (alert_history st) (- limit)).
  { destruct (alert_history st) eqn:Hh; [|done].
    unfold slice_from. by rewrite drop_nil. }
  rewrite Heq. unfold slice_from. split; [apply suffix_drop|]. split.
  - intros Hl. destruct (Z.ltb_spec (- limit) 0); [lia|].
    destruct (Z.min_spec (- limit) (Z.of_nat (length (alert_history st))))
      as [[_ ->]|[Hge ->]]; [done|].
    rewrite Nat2Z.id, !drop_ge; [done|lia..].
  - intros Hl. destruct (Z.ltb_spec (- limit) 0).
    + replace (Z.to_nat _) with 0%nat by lia. done.
    + replace (Z.to_nat _) with 0%nat by lia. done.
Qed.

Example history_with_negative_limit :
  let st := (run env_down initial_state
               [SaveAlertSettings sample_settings "default";
                CheckAlerts sample_body "default" sample_time;
                CheckAlerts landslide_body "default" sample_time]).1 in
  map id (alert_history st) = [1; 2; 3]
  ∧ map id (get_alert_history 2 st) = [2; 3]
  ∧ map id (get_alert_history (-1) st) = [2; 3]
  ∧ map id (get_alert_history (-5) st) = []
  ∧ map id (get_alert_history 50 st) = [1; 2; 3].
Proof. repeat split. Qed.

(** ** Invariants of the history log *)

Lemma numbered_app (h new : list Alert) :
  numbered h →
  (∀ i a, new !! i = Some a → id a = Z.of_nat (length h) + Z.of_nat i + 1) →
  numbered (h ++ new).
Proof.
  intros Hh Hnew i a Hi. apply lookup_app_Some in Hi as [Hi|[Hge Hi]]; [by apply Hh|].
  rewrite (Hnew _ _ Hi). lia.
Qed.

Lemma serve_numbered env st r :
  numbered (alert_history st) → numbered (alert_history (serve env st r).1).
Proof.
  intros Hst. destruct r as [settings user_id|data user_id current_time|];
    cbn [serve fst].
  - done.
  - destruct (check_alerts_history env data user_id current_time st) as (-> & _).
    apply numbered_app; [done|]. apply check_alerts_ids.
  - intros i a. cbn. by rewrite lookup_nil.
Qed.

Lemma run_numbered env rs : ∀ st,
  numbered (alert_history st) → numbered (alert_history (run env st rs).1).
Proof.
  induction rs as [|r rs IH]; intros st Hst; cbn [run]; [done|].
  pose proof (serve_numbered env st r Hst) as H1.
  destruct (serve env st r) as [st1 created1]. specialize (IH st1 H1).
  by destruct (run env st1 rs).
Qed.

(** X7: in every state the service reaches, clears included, the history is
    numbered 1, 2, 3, ... in order, so no two recorded alerts share an id. *)
Theorem history_ids_are_positions env rs :
  let h := alert_history (run env initial_state rs).1 in
  map id h = map (λ i, Z.of_nat i + 1) (seq 0 (length h))
  ∧ NoDup (map id h).
Proof.
  cbv zeta.
  assert (Hn : numbered (alert_history (run env initial_state rs).1)).
  { apply run_numbered. intros i a. cbn. by rewrite lookup_nil. }
  set (h := alert_history _) in *. clearbody h.
  assert (Heq : map id h = map (λ i, Z.of_nat i + 1) (seq 0 (length h))).
  { apply list_eq. intros i. rewrite !list_lookup_fmap.
    destruct (h !! i) as [a|] eqn:Hi; cbn.
    - rewrite (Hn _ _ Hi). apply lookup_lt_Some in Hi as Hlt.
      by rewrite lookup_seq_lt.
    - apply lookup_ge_None in Hi. by rewrite lookup_seq_ge. }
  split; [done|]. rewrite Heq. apply NoDup_fmap_2; [|apply NoDup_seq].
  intros i j. lia.
Qed.

(** An alert of a configured call, by the block that made it. *)
Lemma produced_alert_cases env data user_id current_time st settings a :
  user_alert_settings st !! user_id = Some settings →
  a ∈ alerts (response (check_alerts env data user_id current_time st)) →
  ∃ reading h,
    (inject_Z (configured_threshold settings (type a)) <= number_value reading)%Q
    ∧ (a = landslide_alert settings reading
             (default "Unknown Location" (body_location data)) current_time h
       ∨ a = flood_alert settings reading
               (default "Unknown Location" (body_location data)) current_time h
       ∨ a = rainfall_alert settings reading
               (default "Unknown Location" (body_location data)) current_time h).
Proof.
  intros Hs.
  destruct (check_alerts_configured env data user_id current_time st settings Hs)
    as (nl & nf & nr & Hnl & Hnf & Hnr & ->).
  cbn [response alerts]. rewrite !elem_of_app.
  intros [Ha|[Ha|Ha]]; [subst nl|subst nf|subst nr];
    (match type of Ha with
     | _ ∈ (if number_ge ?x ?y then _ else _) => destruct (number_ge_spec x y)
     end; [apply list_elem_of_singleton in Ha as ->|by apply elem_of_nil in Ha]);
    eexists _, _; (split; [|eauto]); done.
Qed.

Lemma produced_alert_well_formed env data user_id current_time st a :
  a ∈ alerts (response (check_alerts env data user_id current_time st)) →
  well_formed_alert a.
Proof.
  destruct (user_alert_settings st !! user_id) as [settings|] eqn:Hs.
  2: { unfold check_alerts. rewrite Hs. by intros ?%elem_of_nil. }
  intros Ha.
  destruct (produced_alert_cases _ _ _ _ _ _ _ Hs Ha)
    as (reading & h & Hge & [-> | [-> | ->]]); by split.
Qed.

Lemma run_well_formed env rs : ∀ st,
  Forall well_formed_alert (alert_history st) →
  Forall well_formed_alert (alert_history (run env st rs).1).
Proof.
  induction rs as [|r rs IH]; intros st Hst; cbn [run]; [done|].
  assert (H1 : Forall well_formed_alert (alert_history (serve env st r).1)).
  { destruct r as [settings user_id|data user_id current_time|]; cbn [serve fst].
    - done.
    - destruct (check_alerts_history env data user_id current_time st) as (-> & _).
      apply Forall_app. split; [done|]. apply Forall_forall.
      intros a. apply produced_alert_well_formed.
    - constructor. }
  destruct (serve env st r) as [st1 created1]. specialize (IH st1 H1).
  by destruct (run env st1 rs).
Qed.

(** X8: every alert in the history of a reachable state records a real crossing
    (the exact value of its reading, int or float, is at least the threshold
    stored with it) and carries the level of the band its value falls in. *)
Theorem history_alerts_well_formed env rs a :
  a ∈ alert_history (run env initial_state rs).1 →
  (inject_Z (threshold a) <= number_value (value a))%Q
  ∧ level a = band_level (type a) (value a).
Proof.
  intros Ha.
  assert (H : Forall well_formed_alert (alert_history (run env initial_state rs).1))
    by (apply run_well_formed; constructor).
  rewrite Forall_forall in H. by apply H.
Qed.

Lemma history_alerts_well_formed_witness :
  ∃ a, value a = Float 84.5 "84.5" ∧ threshold a = 10 ∧ level a = WARNING
       ∧ (inject_Z (threshold a) <= number_value (value a))%Q
       ∧ level a = band_level (type a) (value a).
Proof.
  set (a := {| id := 1; type := Landslide; level := WARNING;
               value := Float 84.5 "84.5"; threshold := 10;
               message := "Landslide risk at 84.5% exceeds threshold";
               location := "Unknown Location"; timestamp := sample_time |}).
  exists a. split; [reflexivity|]. split; [reflexivity|]. split; [reflexivity|].
  apply (history_alerts_well_formed env_down
           [SaveAlertSettings sample_settings "default";
            CheckAlerts float_body "default" sample_time]).
  apply elem_of_cons. left. reflexivity.
Defined.

(** X9: every alert of a configured call stores the user's threshold for its
    type; it is a WATCH only when its reading lies between that threshold and
    the WARNING edge of its type (70, 60, 100), so for a user whose threshold
    for a type is at or above that edge, the defaults among them, no alert
    of that type is a WATCH. *)
Theorem watch_only_below_warning_edge env data user_id current_time st settings a :
  user_alert_settings st !! user_id = Some settings →
  a ∈ alerts (response (check_alerts env data user_id current_time st)) →
  threshold a = configured_threshold settings (type a)
  ∧ (level a = WATCH →
     (inject_Z (configured_threshold settings (type a)) <= number_value (value a))%Q
     ∧ (number_value (value a) < inject_Z (warning_edge (type a)))%Q)
  ∧ (warning_edge (type a) ≤ configured_threshold settings (type a) →
     level a ≠ WATCH).
Proof.
  intros Hs Ha.
  destruct (produced_alert_cases _ _ _ _ _ _ _ Hs Ha)
    as (reading & h & Hge & [-> | [-> | ->]]);
    cbn [type threshold level value landslide_alert flood_alert rainfall_alert
         configured_threshold warning_edge] in *;
    (split; [reflexivity|]); split.
  all: try (intros Hw; split; [exact Hge|]; revert Hw; case_geb; intros Hw;
            first [discriminate Hw | assumption]).
  all: intros Hedge Hw; revert Hw; rewrite Zle_Qle in Hedge; case_geb; intros Hw;
    first [discriminate Hw | q_arith].
Qed.

Lemma watch_only_below_warning_edge_witness :
  ∃ a, level a = WATCH ∧ threshold a = 10 ∧ value a = Int 12
       ∧ (number_value (value a) < inject_Z (warning_edge (type a)))%Q.
Proof.
  set (a := {| id := 1; type := Landslide; level := WATCH; value := Int 12;
               threshold := 10;
               message := "Landslide risk at 12% exceeds threshold";
               location := "Unknown Location"; timestamp := sample_time |}).
  exists a. split; [reflexivity|]. split; [reflexivity|]. split; [reflexivity|].
  refine (proj2 (proj1 (proj2 (watch_only_below_warning_edge env_down
                   {| body_landslide_risk := Some (Int 12); body_flood_risk := None;
                      body_rainfall := None; body_location := None |}
                   "default" sample_time sample_state sample_settings a eq_refl _))
                   eq_refl)).
  apply elem_of_cons. left. reflexivity.
Defined.

(** With the default thresholds no reading, int or float, gives a WATCH. *)
Example default_thresholds_never_watch :
  map (λ a, (type a, level a, threshold a))
      (alerts (response (check_alerts env_down
         {| body_landslide_risk := Some (Float 70.0 "70.0");
            body_flood_risk := Some (Float 60.5 "60.5");
            body_rainfall := Some (Float 99.99 "99.99"); body_location := None |}
         "default" sample_time
         (save_alert_settings default_settings "default" initial_state))))
  = [(Landslide, WARNING, 70); (Flood, WARNING, 60)].
Proof. reflexivity. Qed.

(** ** Destination numbers *)

(** X10: the number handed to Twilio always starts with [+]: a number that
    already does is passed on unchanged, any other gets [+91] in front;
    normalising twice changes nothing more. *)
Theorem twilio_to_normalises to_phone :
  String.prefix "+" (twilio_to to_phone) = true
  ∧ twilio_to (twilio_to to_phone) = twilio_to to_phone
  ∧ (String.prefix "+" to_phone = true → twilio_to to_phone = to_phone)
  ∧ (String.prefix "+" to_phone = false → twilio_to to_phone = "+91" +:+ to_phone).
Proof.
  assert (H : String.prefix "+" (twilio_to to_phone) = true).
  { unfold twilio_to. destruct (String.prefix "+" to_phone) eqn:Hp; [done|].
    reflexivity. }
  split; [done|]. split.
  - unfold twilio_to at 1. by rewrite H.
  - unfold twilio_to. split; by intros ->.
Qed.

Example twilio_to_samples :
  twilio_to "+14155550100" = "+14155550100"
  ∧ twilio_to "9163615366" = "+919163615366"
  ∧ twilio_to EmptyString = "+91".
Proof. repeat split. Qed.

(** ** The saved alert location *)

Lemma float_truthy_true (x : option Q) :
  float_truthy x = true ↔ ∃ q, x = Some q ∧ ¬ (q == 0)%Q.
Proof.
  destruct x as [q|]; cbn.
  - rewrite negb_true_iff. split.
    + intros Hq. exists q. split; [done|]. by apply Qeq_bool_neq.
    + intros (q' & [= <-] & Hq). apply not_true_is_false.
      intros Ht. by apply Qeq_bool_eq in Ht.
  - split; [done|]. by intros (q & ? & _).
Qed.

(** X11: the saved-location check succeeds exactly when the user has settings
    whose latitude and longitude are both present and both different from
    zero; then it answers with the monitoring message for these coordinates
    and the stored location text. In every other case, a point on the
    equator or on the prime meridian included, it answers with the
    no-location error. *)
Theorem saved_location_needs_nonzero_coordinates format_4f user_id st :
  let r := check_saved_location_alerts format_4f user_id st in
  (saved_status r = "success" ↔
     ∃ settings lat lon,
       user_alert_settings st !! user_id = Some settings
       ∧ alert_lat settings = Some lat ∧ alert_lng settings = Some lon
       ∧ ¬ (lat == 0)%Q ∧ ¬ (lon == 0)%Q)
  ∧ (∀ settings lat lon,
       user_alert_settings st !! user_id = Some settings →
       alert_lat settings = Some lat → alert_lng settings = Some lon →
       ¬ (lat == 0)%Q → ¬ (lon == 0)%Q →
       r = {| saved_status := "success";
              saved_message :=
                "Monitoring location: " +:+ format_4f lat +:+ ", " +:+ format_4f lon;
              saved_location := Some (alert_location settings) |})
  ∧ (saved_status r ≠ "success" → r = no_alert_location).
Proof.
  cbv zeta. unfold check_saved_location_alerts.
  destruct (user_alert_settings st !! user_id) as [settings|] eqn:Hs.
  2: { split; [|done]. split; [done|]. by intros (? & ? & ? & ? & _). }
  destruct (float_truthy (alert_lat settings)) eqn:Hlat;
    destruct (float_truthy (alert_lng settings)) eqn:Hlng; cbn [negb orb].
  - apply float_truthy_true in Hlat as (lat & Hlat & Hlat0).
    apply float_truthy_true in Hlng as (lon & Hlng & Hlon0).
    cbn [saved_status]. split; [|split; [|done]].
    + split; [|done]. intros _. by exists settings, lat, lon.
    + intros s lat' lon' [= <-] Hl1 Hl2 _ _.
      rewrite Hlat in Hl1. rewrite Hlng in Hl2.
      injection Hl1 as <-. injection Hl2 as <-. by rewrite Hlat, Hlng.
  - split; [|split; [|done]].
    + split; [done|]. intros (s & lat & lon & [= <-] & _ & Hl & _ & Hl0).
      assert (float_truthy (alert_lng settings) = true)
        by (apply float_truthy_true; eauto). congruence.
    + intros s lat lon [= <-] _ Hl _ Hl0.
      assert (float_truthy (alert_lng settings) = true)
        by (apply float_truthy_true; eauto). congruence.
  - split; [|split; [|done]].
    + split; [done|]. intros (s & lat & lon & [= <-] & Hl & _ & Hl0 & _).
      assert (float_truthy (alert_lat settings) = true)
        by (apply float_truthy_true; eauto). congruence.
    + intros s lat lon [= <-] Hl _ Hl0 _.
      assert (float_truthy (alert_lat settings) = true)
        by (apply float_truthy_true; eauto). congruence.
  - split; [|split; [|done]].
    + split; [done|]. intros (s & lat & lon & [= <-] & Hl & _ & Hl0 & _).
      assert (float_truthy (alert_lat settings) = true)
        by (apply float_truthy_true; eauto). congruence.
    + intros s lat lon [= <-] Hl _ Hl0 _.
      assert (float_truthy (alert_lat settings) = true)
        by (apply float_truthy_true; eauto). congruence.
Qed.

Example saved_location_on_the_equator :
  check_saved_location_alerts sample_format_4f "default"
    (save_alert_settings equator_settings "default" initial_state)
  = no_alert_location
  ∧ check_saved_location_alerts sample_format_4f "default"
      (save_alert_settings kolkata_settings "default" initial_state)
    = {| saved_status := "success";
         saved_message := "Monitoring location: 22, 88";
         saved_location := Some "Kolkata" |}.
Proof. split; reflexivity. Qed.

(** ** Reverse geocoding *)

Lemma get_or_not_empty x y : y ≠ EmptyString → get_or x y ≠ EmptyString.
Proof.
  intros Hy. unfold get_or. destruct x as [s|]; [|done].
  destruct (truthy s) eqn:Hs; [|done]. by apply truthy_true.
Qed.

Lemma get_or_first x y s : x = Some s → s ≠ EmptyString → get_or x y = s.
Proof.
  intros -> Hs. unfold get_or. by rewrite (proj2 (truthy_true s) Hs).
Qed.

Lemma get_or_skip x y : x = None ∨ x = Some EmptyString → get_or x y = y.
Proof. by intros [-> | ->]. Qed.

Lemma get_location_name_not_empty nominatim lat lon :
  get_location_name nominatim lat lon ≠ EmptyString.
Proof.
  unfold get_location_name.
  destruct (nominatim lat lon) as [|status_code [data|]]; [done| |];
    destruct (status_code =? 200); try done.
  by repeat apply get_or_not_empty.
Qed.

(** X12: the place name is never empty: it is the first non-empty one of city,
    state district, state and country of a 200 answer, [Unknown Location]
    when such an answer has none of them, and [Selected Area] when the
    request fails, the status is not 200 or the body does not decode. *)
Theorem get_location_name_total nominatim lat lon :
  let name := get_location_name nominatim lat lon in
  name ≠ EmptyString
  ∧ match nominatim lat lon with
    | Responded 200 (Some data) =>
        let a := default {| city := None; state_district := None; state := None;
                            country := None |} (address data) in
        (∀ s, city a = Some s → s ≠ EmptyString → name = s)
        ∧ (city a = None ∨ city a = Some EmptyString →
           ∀ s, state_district a = Some s → s ≠ EmptyString → name = s)
        ∧ (city a = None ∨ city a = Some EmptyString →
           state_district a = None ∨ state_district a = Some EmptyString →
           ∀ s, state a = Some s → s ≠ EmptyString → name = s)
        ∧ (city a = None ∨ city a = Some EmptyString →
           state_district a = None ∨ state_district a = Some EmptyString →
           state a = None ∨ state a = Some EmptyString →
           (∀ s, country a = Some s → s ≠ EmptyString → name = s)
           ∧ (country a = None ∨ country a = Some EmptyString →
              name = "Unknown Location"))
    | _ => name = "Selected Area"
    end.
Proof.
  cbv zeta. split; [apply get_location_name_not_empty|].
  unfold get_location_name.
  destruct (nominatim lat lon) as [|status_code [data|]]; [done| |].
  - destruct (Z.eqb_spec status_code 200) as [->|Hne].
    + cbn [Z.eqb Pos.eqb].
      set (a := default _ (address data)).
      split; [intros s Hc Hs; by apply get_or_first|].
      split.
      { intros Hc s Hd Hs. rewrite (get_or_skip _ _ Hc). by apply get_or_first. }
      split.
      { intros Hc Hd s Hst Hs. rewrite (get_or_skip _ _ Hc), (get_or_skip _ _ Hd).
        by apply get_or_first. }
      intros Hc Hd Hst.
      rewrite (get_or_skip _ _ Hc), (get_or_skip _ _ Hd), (get_or_skip _ _ Hst).
      split; [intros s Hco Hs; by apply get_or_first|apply get_or_skip].
    + destruct status_code as [|p|p]; try done.
      repeat (destruct p as [p|p|]; try done).
  - destruct (Z.eqb_spec status_code 200) as [->|Hne]; [done|].
    destruct status_code as [|p|p]; try done.
    repeat (destruct p as [p|p|]; try done).
Qed.

Example sample_location_name :
  get_location_name sample_nominatim 22 88 = "West Bengal"
  ∧ get_location_name (λ _ _, Responded 503 None) 22 88 = "Selected Area"
  ∧ get_location_name (λ _ _, Responded 200 (Some {| address := None |})) 22 88
    = "Unknown Location".
Proof. repeat split. Qed.

(** ** Local news *)

(** X13: the news endpoint always answers with status [success], under the
    geocoded (never empty) place name, with at most six items; the items are
    the first six articles of a 200 answer, in the order received, and there
    are none when the search fails, answers another status or does not
    decode. *)
Theorem get_local_news_shape nominatim gnews lat lon :
  let r := get_local_news nominatim gnews lat lon in
  news_status r = "success"
  ∧ news_location r = get_location_name nominatim lat lon
  ∧ news_location r ≠ EmptyString
  ∧ (length (news r) ≤ 6)%nat
  ∧ match gnews (news_query (get_location_name nominatim lat lon)) with
    | Responded 200 (Some data) =>
        news r = map news_item (take 6 (default [] (articles data)))
    | _ => news r = []
    end.
Proof.
  cbv zeta. unfold get_local_news.
  pose proof (get_location_name_not_empty nominatim lat lon) as Hname.
  destruct (gnews _) as [|status_code [data|]].
  - cbn. repeat split; try done. lia.
  - destruct (Z.eqb_spec status_code 200) as [->|Hne]; cbn.
    + repeat split; try done. rewrite length_map, length_take. lia.
    + repeat split; try done; try lia.
      destruct status_code as [|p|p]; try done.
      repeat (destruct p as [p|p|]; try done).
  - destruct (Z.eqb_spec status_code 200) as [->|Hne]; cbn.
    + repeat split; try done; lia.
    + repeat split; try done; try lia.
      destruct status_code as [|p|p]; try done.
      repeat (destruct p as [p|p|]; try done).
Qed.

Example sample_local_news :
  let r := get_local_news sample_nominatim sample_gnews 22 88 in
  news_location r = "West Bengal"
  ∧ map news_title (news r)
    = ["Storm 1"; "Storm 2"; "Storm 3"; "Storm 4"; "Storm 5"; "Storm 6"]
  ∧ map news_source (news r)
    = ["Unknown"; "Unknown"; "Unknown"; "Unknown"; "Unknown"; "Unknown"].
Proof. repeat split. Qed.

(** ** Safe zones: the retry loop *)

Lemma three_attempts : seq 0 max_retries = [0; 1; 2]%nat.
Proof. reflexivity. Qed.

Lemma fetch_attempts_cons overpass attempt rest f :
  fetch_attempts overpass (attempt :: rest) f
  = let more := (attempt <? max_retries - 1)%nat in
    let backoff := retry_delay * (Z.of_nat attempt + 1) in
    let sent :=
      {| fetch_response := fetch_response f; fetch_returned := fetch_returned f;
         fetch_requests := S (fetch_requests f); fetch_sleeps := fetch_sleeps f |} in
    match overpass attempt with
    | PostResponse status_code json =>
        let got :=
          {| fetch_response := Some (status_code, json);
             fetch_returned := fetch_returned sent;
             fetch_requests := fetch_requests sent;
             fetch_sleeps := fetch_sleeps sent |} in
        if status_code =? 200 then got
        else if status_code =? 504 then
          if more then fetch_attempts overpass rest (fetch_sleep backoff got)
          else fetch_attempts overpass rest got
        else
          if more then fetch_attempts overpass rest (fetch_sleep retry_delay got)
          else fetch_attempts overpass rest got
    | PostTimeout =>
        if more then fetch_attempts overpass rest (fetch_sleep backoff sent)
        else fetch_return zones_unavailable sent
    | PostRaises =>
        if more then fetch_attempts overpass rest (fetch_sleep retry_delay sent)
        else fetch_return zones_failed sent
    end.
Proof. reflexivity. Qed.

(** One attempt of the loop, by cases on its outcome. *)
Ltac fetch_step overpass n H :=
  rewrite fetch_attempts_cons; cbv zeta;
  let c := fresh "c" in let j := fresh "j" in
  destruct (overpass n) as [| |c j] eqn:H;
  [ | | destruct (Z.eqb_spec c 200);
        [subst c|destruct (Z.eqb_spec c 504); [subst c|]] ];
  cbn -[fetch_attempts zones_unavailable zones_failed].

(** The three attempts, by cases on their outcomes. *)
Ltac fetch_cases overpass :=
  rewrite three_attempts;
  let H0 := fresh "H0" in let H1 := fresh "H1" in let H2 := fresh "H2" in
  fetch_step overpass 0%nat H0;
    try fetch_step overpass 1%nat H1;
    try fetch_step overpass 2%nat H2;
    unfold retry_delay; cbn -[zones_unavailable zones_failed].

(** What the loop hands over to the code behind it. *)
Lemma fetch_attempts_handover overpass :
  let f := fetch_attempts overpass (seq 0 max_retries) fetch_start in
  (1 ≤ fetch_requests f ≤ 3)%nat
  ∧ (∀ k json, (k < fetch_requests f - 1)%nat → overpass k ≠ PostResponse 200 json)
  ∧ ((fetch_requests f < 3)%nat →
     ∃ json, overpass (fetch_requests f - 1)%nat = PostResponse 200 json)
  ∧ (∀ r, fetch_returned f = Some r →
     fetch_requests f = 3%nat
     ∧ ((overpass 2%nat = PostTimeout ∧ r = zones_unavailable)
        ∨ (overpass 2%nat = PostRaises ∧ r = zones_failed)))
  ∧ (fetch_returned f = None →
     ∃ status_code json,
       overpass (fetch_requests f - 1)%nat = PostResponse status_code json
       ∧ fetch_response f = Some (status_code, json)).
Proof.
  cbv zeta. fetch_cases overpass;
    (split; [lia|]);
    (split; [intros [|[|k]] json Hk; try lia; congruence|]);
    (split; [intros Hlt; try lia; eauto|]);
    (split; [intros r Hr; try discriminate; injection Hr as <-; auto|]);
    intros Hret; try discriminate; eauto.
Qed.

(** X14: the retry loop sends between one and three requests and sleeps only
    between two requests: after a failed attempt that is not the last it
    sleeps 2 seconds times the attempt number for a timeout or a 504 answer
    and 2 seconds otherwise (2 or 4 seconds, 6 in all at most); it stops
    before the third request only on a 200 answer, no earlier request having
    been answered 200; it returns from inside only when the third request
    raises, with the answer for a timeout or for another exception; and when
    it ends without returning, the response it leaves is the answer to the
    last request sent, so [response] is never unbound. *)
Theorem fetch_attempts_bounded overpass :
  let f := fetch_attempts overpass (seq 0 max_retries) fetch_start in
  (1 ≤ fetch_requests f ≤ 3)%nat
  ∧ length (fetch_sleeps f) = (fetch_requests f - 1)%nat
  ∧ fetch_sleeps f
    = map (λ k, delay_after k (overpass k)) (seq 0 (fetch_requests f - 1))
  ∧ Forall (λ delay, delay = 2 ∨ delay = 4) (fetch_sleeps f)
  ∧ foldr Z.add 0 (fetch_sleeps f) ≤ 6
  ∧ (∀ k json, (k < fetch_requests f - 1)%nat → overpass k ≠ PostResponse 200 json)
  ∧ ((fetch_requests f < 3)%nat →
     ∃ json, overpass (fetch_requests f - 1)%nat = PostResponse 200 json)
  ∧ (∀ r, fetch_returned f = Some r →
     fetch_requests f = 3%nat
     ∧ ((overpass 2%nat = PostTimeout ∧ r = zones_unavailable)
        ∨ (overpass 2%nat = PostRaises ∧ r = zones_failed)))
  ∧ (fetch_returned f = None →
     ∃ status_code json,
       overpass (fetch_requests f - 1)%nat = PostResponse status_code json
       ∧ fetch_response f = Some (status_code, json)).
Proof.
  cbv zeta. fetch_cases overpass;
    (split; [lia|]); (split; [reflexivity|]);
    (split; [cbn [seq map];
             repeat match goal with H : overpass _ = _ |- _ => rewrite H end;
             unfold delay_after;
             repeat match goal with
             | |- context [?c =? 504] => destruct (Z.eqb_spec c 504)
             end; first [congruence | reflexivity]|]);
    (split; [repeat constructor; first [left; reflexivity | right; reflexivity]|]);
    (split; [lia|]);
    (split; [intros [|[|k]] json Hk; try lia; congruence|]);
    (split; [intros Hlt; try lia; eauto|]);
    (split; [intros r Hr; try discriminate; injection Hr as <-; auto|]);
    intros Hret; try discriminate; eauto.
Qed.

Example sample_fetch :
  let f := fetch_attempts sample_overpass (seq 0 max_retries) fetch_start in
  fetch_requests f = 3%nat ∧ fetch_sleeps f = [2; 4] ∧ fetch_returned f = None
  ∧ fetch_returned (fetch_attempts (λ _, PostRaises) (seq 0 max_retries) fetch_start)
    = Some zones_failed
  ∧ fetch_returned
      (fetch_attempts (λ _, PostResponse 500 (inl "no body")) (seq 0 max_retries)
         fetch_start) = None.
Proof. repeat split. Qed.

(** ** Safe zones: the answer *)

Lemma insert_by_distance_perm z l : insert_by_distance z l ≡ₚ z :: l.
Proof.
  induction l as [|y l IH]; cbn; [done|].
  destruct (Qle_bool _ _); [|done]. rewrite IH. apply Permutation_swap.
Qed.

Lemma insert_by_distance_sorted z l :
  StronglySorted nearer l → StronglySorted nearer (insert_by_distance z l).
Proof.
  induction l as [|y l IH]; intros Hl; cbn.
  { repeat constructor. }
  apply StronglySorted_inv in Hl as [Hl Hy].
  destruct (Qle_bool (zone_distance y) (zone_distance z)) eqn:Hle.
  - apply Qle_bool_iff in Hle. constructor; [by apply IH|].
    rewrite insert_by_distance_perm. by constructor.
  - assert (Hzy : nearer z y).
    { unfold nearer. apply Qlt_le_weak, Qnot_le_lt. intros Hle'.
      apply Qle_bool_iff in Hle'. congruence. }
    constructor; [by constructor|]. constructor; [done|].
    eapply Forall_impl; [exact Hy|]. intros b Hb. unfold nearer in *.
    by eapply Qle_trans.
Qed.

Lemma sort_by_distance_spec l :
  sort_by_distance l ≡ₚ l ∧ StronglySorted nearer (sort_by_distance l).
Proof.
  unfold sort_by_distance.
  cut (∀ acc, StronglySorted nearer acc →
         foldl (λ sorted z, insert_by_distance z sorted) acc l ≡ₚ acc ++ l
         ∧ StronglySorted nearer (foldl (λ sorted z, insert_by_distance z sorted) acc l)).
  { intros H. apply (H []). constructor. }
  induction l as [|z l IH]; intros acc Hacc; cbn.
  { by rewrite app_nil_r. }
  destruct (IH (insert_by_distance z acc) (insert_by_distance_sorted z acc Hacc))
    as [Hp Hs].
  split; [|done]. rewrite Hp, insert_by_distance_perm.
  cbn [app]. apply Permutation_middle.
Qed.

(** What a successful answer is made of. *)
(** The element loop yields zones exactly when every element yields one. *)
Lemma safe_zones_of_inr rounded_distance lat lon els built :
  safe_zones_of rounded_distance lat lon els = inr built
  ↔ Forall2 (λ elem zone, safe_zone rounded_distance lat lon elem = inr zone) els built.
Proof.
  revert built. induction els as [|e els IH]; intros built; cbn [safe_zones_of].
  - split; [intros [= <-]; constructor|]. by intros ->%Forall2_nil_inv_l.
  - destruct (safe_zone rounded_distance lat lon e) as [msg|z] eqn:He.
    + split; [done|]. intros (z & zs & Hz & _ & _)%Forall2_cons_inv_l. congruence.
    + destruct (safe_zones_of rounded_distance lat lon els) as [msg|zs] eqn:Hes.
      * split; [done|]. intros (z' & zs' & _ & Hzs & _)%Forall2_cons_inv_l.
        by apply IH in Hzs.
      * split.
        -- intros [= <-]. constructor; [done|]. by apply IH.
        -- intros (z' & zs' & Hz & Hzs & ->)%Forall2_cons_inv_l.
           apply IH in Hzs. congruence.
Qed.

(** The whole endpoint: the first 200 answer among the three attempts decides,
    and the third attempt when there is none. *)
Lemma get_safe_zones_decided overpass rounded_distance lat lon radius :
  let r := get_safe_zones overpass rounded_distance lat lon radius in
  (∀ k json, first_ok overpass k json → r = zones_answer rounded_distance lat lon json)
  ∧ ((∀ k json, (k < 3)%nat → overpass k ≠ PostResponse 200 json) →
     r = zones_failure (overpass 2%nat)).
Proof.
  cbv zeta. unfold get_safe_zones.
  destruct (fetch_attempts_handover overpass)
    as ([Hge Hle] & Hearlier & Hstop & Hreturn & Hlast).
  set (f := fetch_attempts overpass (seq 0 max_retries) fetch_start) in *.
  split.
  - intros k json (Hk & Hok & Hfirst).
    assert (Hkf : k = (fetch_requests f - 1)%nat).
    { destruct (decide (k < fetch_requests f - 1)%nat) as [Hlt|Hnlt].
      { by destruct (Hearlier k json Hlt). }
      destruct (decide (fetch_requests f - 1 < k)%nat) as [Hgt|Hngt]; [|lia].
      destruct Hstop as [json' Hj]; [lia|]. by destruct (Hfirst _ json' Hgt). }
    destruct (fetch_returned f) as [r|] eqn:Hr.
    { destruct (Hreturn r eq_refl) as [H3 [[Ho _]|[Ho _]]];
        replace k with 2%nat in Hok by lia; congruence. }
    destruct (Hlast eq_refl) as (status_code & json' & Ho & ->).
    rewrite <- Hkf, Hok in Ho. by injection Ho as <- <-.
  - intros Hnone.
    assert (H3 : fetch_requests f = 3%nat).
    { destruct (decide (fetch_requests f < 3)%nat) as [Hlt|]; [|lia].
      destruct (Hstop Hlt) as [json Hj]. by destruct (Hnone (fetch_requests f - 1)%nat json ltac:(lia)). }
    destruct (fetch_returned f) as [r|] eqn:Hr.
    { by destruct (Hreturn r eq_refl) as [_ [[-> ->]|[-> ->]]]. }
    destruct (Hlast eq_refl) as (status_code & json & Ho & ->).
    rewrite H3 in Ho. change (3 - 1)%nat with 2%nat in Ho. rewrite Ho.
    destruct (Z.eqb_spec status_code 200) as [->|Hne]; [|done].
    by destruct (Hnone 2%nat json ltac:(lia)).
Qed.

(** The first 200 answer, if any, is unique. *)
Lemma first_ok_or_none overpass :
  (∃ k json, first_ok overpass k json)
  ∨ (∀ k json, (k < 3)%nat → overpass k ≠ PostResponse 200 json).
Proof.
  assert (Hdec : ∀ k, (∃ json, overpass k = PostResponse 200 json)
                      ∨ (∀ json, overpass k ≠ PostResponse 200 json)).
  { intros k. destruct (overpass k) as [| |c json]; [by right|by right|].
    destruct (decide (c = 200)) as [->|Hc]; [left; eauto|right; congruence]. }
  destruct (Hdec 0%nat) as [[j0 H0]|H0].
  { left. exists 0%nat, j0. split; [lia|]. split; [done|]. intros; lia. }
  destruct (Hdec 1%nat) as [[j1 H1]|H1].
  { left. exists 1%nat, j1. split; [lia|]. split; [done|].
    intros [|j] json' Hj; [apply H0|lia]. }
  destruct (Hdec 2%nat) as [[j2 H2]|H2].
  { left. exists 2%nat, j2. split; [lia|]. split; [done|].
    intros [|[|j]] json' Hj; [apply H0|apply H1|lia]. }
  right. intros [|[|[|k]]] json Hk; [apply H0|apply H1|apply H2|lia].
Qed.

(** X15: the answer is a success exactly when the first 200 answer among the
    three attempts decodes and every element of it yields a zone; it then
    lists the zones in ascending order of distance, at most 15 of them,
    every listed zone being at most as far as every zone left out; listed and
    left-out zones together are the zones built from the elements received,
    and [total_found] counts them all. *)
Theorem safe_zones_are_the_nearest overpass rounded_distance lat lon radius :
  let r := get_safe_zones overpass rounded_distance lat lon radius in
  (zones_status r = "success" ↔
     ∃ k data built,
       first_ok overpass k (inr data)
       ∧ Forall2 (λ elem zone, safe_zone rounded_distance lat lon elem = inr zone)
                 (default [] (elements data)) built)
  ∧ (∀ k data built,
       first_ok overpass k (inr data) →
       Forall2 (λ elem zone, safe_zone rounded_distance lat lon elem = inr zone)
               (default [] (elements data)) built →
       ∃ listed left_out,
         r = {| zones_status := "success"; zones_message := None;
                safe_zones := Some listed;
                total_found := Some (length (default [] (elements data))) |}
         ∧ length listed = Nat.min 15 (length (default [] (elements data)))
         ∧ listed ++ left_out ≡ₚ built
         ∧ StronglySorted nearer listed
         ∧ (∀ a b, a ∈ listed → b ∈ left_out → nearer a b)).
Proof.
  intros r.
  destruct (get_safe_zones_decided overpass rounded_distance lat lon radius)
    as [Hok Hnone]. fold r in Hok, Hnone.
  assert (Hbuilt : ∀ k data built,
            first_ok overpass k (inr data) →
            Forall2 (λ elem zone, safe_zone rounded_distance lat lon elem = inr zone)
                    (default [] (elements data)) built →
            r = {| zones_status := "success"; zones_message := None;
                   safe_zones := Some (take 15 (sort_by_distance built));
                   total_found := Some (length (sort_by_distance built)) |}).
  { intros k data built Hk Hb. rewrite (Hok _ _ Hk). unfold zones_answer.
    apply safe_zones_of_inr in Hb. by rewrite Hb. }
  split.
  - split.
    + intros Hs. destruct (first_ok_or_none overpass) as [(k & json & Hk)|Hno].
      * rewrite (Hok _ _ Hk) in Hs. unfold zones_answer in Hs.
        destruct json as [msg|data]; [discriminate|].
        destruct (safe_zones_of _ _ _ _) as [msg|built] eqn:Hb; [discriminate|].
        exists k, data, built. split; [done|]. by apply safe_zones_of_inr.
      * rewrite (Hnone Hno) in Hs. by destruct (overpass 2%nat).
    + intros (k & data & built & Hk & Hb). by rewrite (Hbuilt _ _ _ Hk Hb).
  - intros k data built Hk Hb. rewrite (Hbuilt _ _ _ Hk Hb).
    destruct (sort_by_distance_spec built) as [Hp Hsorted].
    set (zones := sort_by_distance built) in *.
    assert (Hlen : length zones = length (default [] (elements data))).
    { rewrite (Permutation_length Hp). symmetry. by eapply Forall2_length. }
    exists (take 15 zones), (drop 15 zones).
    split; [by rewrite Hlen|]. split; [by rewrite length_take, Hlen|].
    rewrite take_drop. split; [done|].
    rewrite <- (take_drop 15 zones) in Hsorted.
    apply StronglySorted_app in Hsorted as (Hcross & Htake & _).
    split; [done|]. intros a b Ha Hb'. by apply Hcross.
Qed.

Lemma safe_zones_are_the_nearest_witness :
  ∃ listed,
    safe_zones (get_safe_zones sample_overpass sample_distance 22 88 5) = Some listed
    ∧ total_found (get_safe_zones sample_overpass sample_distance 22 88 5) = Some 3%nat
    ∧ map zone_distance listed = [3%Q; 7%Q; 7%Q]
    ∧ StronglySorted nearer listed.
Proof.
  destruct (proj1 (proj1 (safe_zones_are_the_nearest sample_overpass sample_distance
                            22 88 5)) eq_refl)
    as (k & data & built & Hk & Hb).
  destruct (proj2 (safe_zones_are_the_nearest sample_overpass sample_distance 22 88 5)
              k data built Hk Hb)
    as (listed & left_out & Hr & _ & _ & Hsorted & _).
  exists listed.
  assert (Hl : safe_zones (get_safe_zones sample_overpass sample_distance 22 88 5)
               = Some listed) by (by rewrite Hr).
  split; [exact Hl|]. split; [reflexivity|]. split; [|exact Hsorted].
  vm_compute in Hl. injection Hl as <-. reflexivity.
Defined.

Example sample_safe_zones :
  let r := get_safe_zones sample_overpass sample_distance 22 88 5 in
  zones_status r = "success"
  ∧ total_found r = Some 3%nat
  ∧ (map (λ z, (zone_name z, zone_category z)) <$> safe_zones r)
    = Some [("Unnamed hospital", "Hospital"); ("Unnamed police", "Police Station");
            ("Unnamed shelter", "Shelter")].
Proof. repeat split. Qed.

(** ** Missing readings and sender calls *)

Lemma number_ge_int z t : number_ge (Int z) t = (z >=? t).
Proof.
  unfold number_ge. cbn [number_value]. apply eq_true_iff_eq.
  by rewrite Qle_bool_iff, <- Zle_Qle, Z.geb_le.
Qed.

(** X17: a reading missing from the body counts as 0: a body without readings
    produces no alert for a user whose thresholds are all positive, and
    produces the alert of every metric whose threshold is 0 or less. *)
Theorem missing_readings_count_as_zero env user_id current_time st settings :
  user_alert_settings st !! user_id = Some settings →
  let produced := alerts (response (check_alerts env empty_body user_id current_time st)) in
  (0 < landslide_threshold settings → 0 < flood_threshold settings →
   0 < rainfall_threshold settings → produced = [])
  ∧ (landslide_threshold settings ≤ 0 →
     ∃ a, a ∈ produced ∧ type a = Landslide ∧ value a = Int 0 ∧ level a = WATCH)
  ∧ (flood_threshold settings ≤ 0 →
     ∃ a, a ∈ produced ∧ type a = Flood ∧ value a = Int 0 ∧ level a = WATCH)
  ∧ (rainfall_threshold settings ≤ 0 →
     ∃ a, a ∈ produced ∧ type a = HeavyRainfall ∧ value a = Int 0 ∧ level a = WATCH).
Proof.
  intros Hs produced.
  destruct (check_alerts_configured env empty_body user_id current_time st settings Hs)
    as (nl & nf & nr & Hnl & Hnf & Hnr & Heq).
  assert (produced = nl ++ nf ++ nr) as -> by (unfold produced; by rewrite Heq).
  clear Heq. cbn [empty_body body_landslide_risk body_flood_risk body_rainfall
                  default from_option] in Hnl, Hnf, Hnr.
  rewrite number_ge_int in Hnl, Hnf, Hnr.
  split; [|split; [|split]].
  - intros Hl Hf Hr.
    destruct (Z.geb_spec 0 (landslide_threshold settings)); [lia|].
    destruct (Z.geb_spec 0 (flood_threshold settings)); [lia|].
    destruct (Z.geb_spec 0 (rainfall_threshold settings)); [lia|]. by subst.
  - intros Hl. destruct (Z.geb_spec 0 (landslide_threshold settings)); [|lia].
    eexists. split; [|split; [|split]].
    subst nl. apply elem_of_app. left. by apply list_elem_of_singleton.
    all: reflexivity.
  - intros Hf. destruct (Z.geb_spec 0 (flood_threshold settings)); [|lia].
    eexists. split; [|split; [|split]].
    subst nf. apply elem_of_app. right.
    apply elem_of_app. left. by apply list_elem_of_singleton.
    all: reflexivity.
  - intros Hr. destruct (Z.geb_spec 0 (rainfall_threshold settings)); [|lia].
    eexists. split; [|split; [|split]].
    subst nr. apply elem_of_app. right.
    apply elem_of_app. right. by apply list_elem_of_singleton.
    all: reflexivity.
Qed.

Lemma missing_readings_count_as_zero_witness :
  alerts (response (check_alerts env_up empty_body "default" sample_time sample_state))
  = [].
Proof.
  apply (missing_readings_count_as_zero env_up "default" sample_time sample_state
           sample_settings eq_refl); cbn; lia.
Defined.

(** X18: in a configured call every alert is handed once to each channel whose
    guard holds, email before SMS, alert after alert in the order of the
    response: no send is repeated, and at most six are made. *)
Theorem one_send_per_channel_per_alert env data user_id current_time st settings :
  user_alert_settings st !! user_id = Some settings →
  let res := check_alerts env data user_id current_time st in
  calls res = flat_map (calls_for settings) (alerts (response res))
  ∧ (length (calls res) ≤ 2 * length (alerts (response res)))%nat
  ∧ (length (calls res) ≤ 6)%nat.
Proof.
  intros Hs res.
  assert (Hc : calls res = flat_map (calls_for settings) (alerts (response res))).
  { unfold res.
    destruct (check_alerts_configured env data user_id current_time st settings Hs)
      as (nl & nf & nr & _ & _ & _ & ->).
    cbn [calls response alerts]. apply notify_all_calls. }
  assert (Hlen : ∀ l, (length (flat_map (calls_for settings) l) ≤ 2 * length l)%nat).
  { induction l as [|a l IH]; cbn [flat_map length]; [lia|].
    rewrite length_app. unfold calls_for at 1.
    destruct (enable_email settings && truthy (email settings)),
             (enable_sms settings && truthy (phone settings)); cbn; lia. }
  assert (Hthree : (length (alerts (response res)) ≤ 3)%nat).
  { unfold res.
    destruct (check_alerts_configured env data user_id current_time st settings Hs)
      as (nl & nf & nr & -> & -> & -> & ->).
    cbn [response alerts]. rewrite !length_app.
    repeat match goal with |- context [if ?b then _ else _] => destruct b end;
      cbn; lia. }
  split; [done|]. rewrite Hc. specialize (Hlen (alerts (response res))).
  split; lia.
Qed.

Lemma one_send_per_channel_per_alert_witness :
  map (λ c, match c with
            | EmailCall to_email a => (to_email, type a)
            | SmsCall to_phone a => (to_phone, type a)
            end)
      (calls (check_alerts env_up sample_body "default" sample_time sample_state))
  = [("user@example.org", Landslide); ("9163615366", Landslide);
     ("user@example.org", Flood); ("9163615366", Flood)].
Proof.
  rewrite (proj1 (one_send_per_channel_per_alert env_up sample_body "default"
                    sample_time sample_state sample_settings eq_refl)).
  reflexivity.
Defined.

(** ** Safe zones: the failures *)

(** X16: every answer is a success or an error without [total_found]. When no
    attempt is answered 200 the third attempt decides the error (a timeout,
    another exception, or the HTTP status of its answer) and the error
    carries an empty zone list. When the first 200 answer does not decode,
    or one of its elements makes the distance computation raise, the error
    carries that exception's message and no zone list; these are the only
    errors without a zone list. *)
Theorem safe_zones_error_shape overpass rounded_distance lat lon radius :
  let r := get_safe_zones overpass rounded_distance lat lon radius in
  ((∀ k json, (k < 3)%nat → overpass k ≠ PostResponse 200 json) →
     r = match overpass 2%nat with
         | PostTimeout => zones_unavailable
         | PostRaises => zones_failed
         | PostResponse status_code _ =>
             zones_error
               ("Safe zones API unavailable (HTTP " +:+ pretty status_code +:+ ")")
         end)
  ∧ (∀ k msg, first_ok overpass k (inl msg) → r = zones_exception msg)
  ∧ (∀ k data msg,
       first_ok overpass k (inr data) →
       safe_zones_of rounded_distance lat lon (default [] (elements data)) = inl msg →
       r = zones_exception msg)
  ∧ (zones_status r = "success"
     ∨ (zones_status r = "error" ∧ total_found r = None
        ∧ (safe_zones r = Some []
           ∨ (safe_zones r = None
              ∧ ∃ k msg,
                  zones_message r = Some msg
                  ∧ (first_ok overpass k (inl msg)
                     ∨ ∃ data,
                         first_ok overpass k (inr data)
                         ∧ safe_zones_of rounded_distance lat lon
                             (default [] (elements data)) = inl msg))))).
Proof.
  intros r.
  destruct (get_safe_zones_decided overpass rounded_distance lat lon radius)
    as [Hok Hnone]. fold r in Hok, Hnone.
  split; [exact Hnone|].
  split; [intros k msg Hk; by rewrite (Hok _ _ Hk)|].
  split.
  { intros k data msg Hk Hb. rewrite (Hok _ _ Hk). unfold zones_answer.
    by rewrite Hb. }
  destruct (first_ok_or_none overpass) as [(k & json & Hk)|Hno].
  - rewrite (Hok _ _ Hk). unfold zones_answer. destruct json as [msg|data].
    + right. split; [done|]. split; [done|]. right. split; [done|].
      exists k, msg. split; [done|]. by left.
    + destruct (safe_zones_of _ _ _ _) as [msg|built] eqn:Hb; [|by left].
      right. split; [done|]. split; [done|]. right. split; [done|].
      exists k, msg. split; [done|]. right. by exists data.
  - rewrite (Hnone Hno). right.
    destruct (overpass 2%nat); (split; [done|]); (split; [done|]); by left.
Qed.

Example safe_zones_after_three_failures :
  get_safe_zones (λ _, PostTimeout) sample_distance 22 88 5 = zones_unavailable
  ∧ get_safe_zones (λ _, PostRaises) sample_distance 22 88 5 = zones_failed
  ∧ get_safe_zones (λ _, PostResponse 504 (inl "no body")) sample_distance 22 88 5
    = zones_error "Safe zones API unavailable (HTTP 504)"
  ∧ get_safe_zones sample_overpass raising_distance 22 88 5
    = zones_exception "math domain error"
  ∧ get_safe_zones (λ _, PostResponse 200 (inl "Expecting value")) sample_distance
      22 88 5
    = zones_exception "Expecting value".
Proof. repeat split. Qed.
